(** * examples/pubsub_client_2wtls.py: the pub/sub command-line client

    A shallow embedding of [PubsubClient] and of the script body that drives
    it.  The client talks to collaborators that are not part of the file:
    the protocol stack with its XEP-0060 plugin (one awaited call per
    handler), the XML parser, the logging module and the file system.  Their
    answers are gathered in a record [World]; what the script does is
    recorded as a list of [event]s, in the order in which it happens. *)

From Stdlib Require Import String Ascii List Bool Arith Lia.
Import ListNotations.
Open Scope string_scope.
Open Scope list_scope.

(** ** Python values the script manipulates *)

Module Py.

(** [str(x)] for an optional string: [None] prints as the word None. *)
Definition str (x : option string) : string :=
  match x with
  | Some s => s
  | None => "None"
  end.

(** Truth value of an optional string: [None] and the empty string are false. *)
Definition truthy (x : option string) : bool :=
  match x with
  | Some (String _ _) => true
  | _ => false
  end.

(** [s.split(sep)] for a one-character separator: the pieces between the
    separators, so one piece more than there are separators. *)
Fixpoint split (sep : ascii) (s : string) : list string :=
  match s with
  | EmptyString => [EmptyString]
  | String c rest =>
      if Ascii.eqb c sep then EmptyString :: split sep rest
      else match split sep rest with
           | w :: ws => String c w :: ws
           | [] => [String c EmptyString]
           end
  end.

(** [sep.join(pieces)]. *)
Fixpoint join (sep : ascii) (pieces : list string) : string :=
  match pieces with
  | [] => EmptyString
  | [w] => w
  | w :: ws => w ++ String sep (join sep ws)
  end.

(** Number of occurrences of a character. *)
Fixpoint count (c : ascii) (s : string) : nat :=
  match s with
  | EmptyString => 0
  | String d rest => (if Ascii.eqb d c then 1 else 0) + count c rest
  end.

(** [fmt % args] where every argument is a string and the only conversions
    are [%s] and the escape [%%], the ones the file uses.  [None] stands for
    the TypeError or ValueError Python raises: too few arguments, arguments
    left over, or a conversion that is cut short; any other conversion is
    outside the model and is refused as well. *)
Fixpoint format (fmt : string) (args : list string) : option string :=
  match fmt with
  | EmptyString =>
      match args with
      | [] => Some EmptyString
      | _ :: _ => None
      end
  | String c rest =>
      if Ascii.eqb c "%" then
        match rest with
        | EmptyString => None
        | String d rest' =>
            if Ascii.eqb d "s" then
              match args with
              | a :: args' => option_map (append a) (format rest' args')
              | [] => None
              end
            else if Ascii.eqb d "%" then
              option_map (String "%") (format rest' args)
            else None
        end
      else option_map (String c) (format rest args)
  end.

(** [needle in hay]. *)
Fixpoint contains (needle hay : string) : bool :=
  String.prefix needle hay ||
  match hay with
  | EmptyString => false
  | String _ rest => contains needle rest
  end.

(** [x in xs] for a list of strings. *)
Definition mem (x : string) (xs : list string) : bool :=
  existsb (String.eqb x) xs.

End Py.

(** ** Logging *)

Inductive Level := DEBUG | INFO | ERROR | CRITICAL.

(** The numeric levels of the logging module. *)
Definition levelno (l : Level) : nat :=
  match l with
  | DEBUG => 10
  | INFO => 20
  | ERROR => 40
  | CRITICAL => 50
  end.

(** One call of [logging.info], [logging.error], [logging.critical] or
    [logging.exception]: the message is kept apart from its arguments, as the
    logging module keeps them until a handler formats the record.
    [logging.exception] logs at level ERROR and sets [exc_info]. *)
Record LogRecord := mkLog {
  levelname : Level;
  msg : string;
  args : list string;
  exc_info : bool
}.

(** [LogRecord.getMessage]: the message is formatted only when there are
    arguments.  [None] is a formatting error: the logging handler catches
    it and, in place of the line of the record, [handleError] dumps the
    error, the message and the arguments on stderr; nothing is raised to the
    caller of the logging function. *)
Definition getMessage (r : LogRecord) : option string :=
  match args r with
  | [] => Some (msg r)
  | _ :: _ => Py.format (msg r) (args r)
  end.

(** The message line of a record under a threshold: the formatted message,
    when the level passes and the record formats.  This is the line the
    logging call is made for.  What else reaches the stream is not part of
    it: the traceback lines that follow the message of a record with
    [exc_info], and the dump of [handleError] for a record that does not
    format. *)
Definition emitted (threshold : Level) (r : LogRecord) : option string :=
  if Nat.leb (levelno threshold) (levelno (levelname r)) then getMessage r
  else None.

(** ** Exceptions, requests and responses *)

(** The exceptions that can travel through the client.  [XMPPError] stands
    for the class and its subclasses (an error stanza or a timeout, raised
    by the plugin when a request fails) and carries [error.format()]. *)
Inductive Exception :=
| XMPPError (format : string)
| AttributeError (what : string)
| TypeError (what : string)
| ParseError (what : string)
| SystemExit (code : nat)
| OtherException (name : string).

(** A parsed document, known by its serialisation [tostring]. *)
Record Element := mkElement { tostring : string }.

(** A stored item of a node. *)
Record Item := mkItem { id : string; payload : Element }.

(** The requests the handlers hand to the XEP-0060 plugin, one constructor
    per plugin method, with the arguments the handler passes. *)
Module xep_0060.
Inductive Request :=
| get_nodes (server : string) (node : option string)
| create_node (server : string) (node : option string)
| delete_node (server : string) (node : option string)
| get_node_config (server : string) (node : option string)
| publish (server : string) (node : option string) (payload : Element)
| get_item (server : string) (node : option string) (item_id : option string)
| retract (server : string) (node : option string) (item_id : option string)
| purge (server : string) (node : option string)
| subscribe (server : string) (node : option string)
| unsubscribe (server : string) (node : option string)
| get_affiliations (server : string) (node : option string)
| modify_affiliations (server : string) (node : option string)
    (affiliations : list (string * string)).
End xep_0060.

(** The result stanza of a request, through the fields the handlers read.
    Stanza objects are kept as the text [str] gives for them, which is all
    the handlers do with them.  [disco_items] is what the loop of [nodes]
    meets, in the order in which it meets it: the library hands the items
    over as a set, so this is the iteration order of that set, not the order
    of the answer on the wire. *)
Record Iq := mkIq {
  disco_items : list string;
  configure_form : string;
  publish_item_id : string;
  items_substanzas : list Item;
  subscription_jid : string;
  subscription_node : string;
  affiliations_affiliation : string;
  iq_str : string
}.

(** What a call returns: a value, or an exception. *)
Inductive Result (A : Type) :=
| Ok (a : A)
| Raise (e : Exception).
Arguments Ok {A} a.
Arguments Raise {A} e.

(** ** Observable events and the monad of the script *)

Inductive event :=
| EvConnect
| EvRoster
| EvPresence
| EvCall (name : string)
| EvRequest (r : xep_0060.Request)
| EvLog (r : LogRecord)
| EvDisconnect.

(** A computation: the events it performed, in order, and how it ended. *)
Definition Run (A : Type) : Type := (list event * Result A)%type.

Definition ret {A} (a : A) : Run A := ([], Ok a).

Definition bind {A B} (m : Run A) (k : A -> Run B) : Run B :=
  match m with
  | (t, Ok a) => let (t', r) := k a in (t ++ t', r)
  | (t, Raise e) => (t, Raise e)
  end.

Definition raise {A} (e : Exception) : Run A := ([], Raise e).

Definition emit (ev : event) : Run unit := ([ev], Ok tt).

Declare Scope run_scope.
Delimit Scope run_scope with run.
Notation "x <- m ;; k" := (bind m (fun x => k))
  (at level 61, m at next level, right associativity) : run_scope.
Notation "m ;; k" := (bind m (fun _ => k))
  (at level 61, right associativity) : run_scope.
Open Scope run_scope.

(** [try: body  except XMPPError as error: handler(error.format())]. *)
Definition try_except_XMPPError {A} (body : Run A) (handler : string -> Run A) : Run A :=
  match body with
  | (t, Raise (XMPPError f)) => let (t', r) := handler f in (t ++ t', r)
  | other => other
  end.

(** [try: body  except: handler], the bare clause that catches everything. *)
Definition try_except {A} (body : Run A) (handler : Exception -> Run A) : Run A :=
  match body with
  | (t, Raise e) => let (t', r) := handler e in (t ++ t', r)
  | other => other
  end.

(** [for x in xs: body(x)]. *)
Fixpoint for_each {A} (xs : list A) (body : A -> Run unit) : Run unit :=
  match xs with
  | [] => ret tt
  | x :: rest => body x ;; for_each rest body
  end.

Definition events {A} (m : Run A) : list event := fst m.
Definition result {A} (m : Run A) : Result A := snd m.

Module logging.
Definition info (m : string) (a : list string) : Run unit :=
  emit (EvLog (mkLog INFO m a false)).
Definition error (m : string) (a : list string) : Run unit :=
  emit (EvLog (mkLog ERROR m a false)).
Definition critical (m : string) (a : list string) : Run unit :=
  emit (EvLog (mkLog CRITICAL m a false)).
Definition exception (m : string) (a : list string) : Run unit :=
  emit (EvLog (mkLog ERROR m a true)).
End logging.

(** The operator [fmt % args] as an expression of the script. *)
Definition percent (fmt : string) (a : list string) : Run string :=
  match Py.format fmt a with
  | Some s => ret s
  | None => raise (TypeError "string formatting")
  end.

(** ** The collaborators *)

(** Everything the file takes from outside: the XML parser, the protocol
    stack (roster retrieval, the plugin's answer to each request, the bound
    address, the attributes of the classes the client inherits from, whether
    the session gets established) and the file system. *)
Record World := mkWorld {
  ET_fromstring : string -> Result Element;
  get_roster : Result unit;
  xep_0060_send : xep_0060.Request -> Result Iq;
  boundjid_bare : string;
  inherited : string -> option (Run unit);
  session_established : bool;
  os_path_isdir : string -> bool;
  os_path_isfile : string -> bool;
  os_getcwd : string
}.

(** ** class PubsubClient *)

(** The attributes [__init__] stores on the client. *)
Record PubsubClient := mkPubsubClient {
  jid : option string;
  password : option string;
  pubsub_server : string;
  node : option string;
  action : string;
  data : option string
}.

(** [self.actions], as [__init__] builds it (lines 24 to 28). *)
Definition actions : list string :=
  (["nodes"; "create"; "delete"; "get_configure";
    "publish"; "get"; "retract";
    "purge"; "subscribe"; "unsubscribe"] ++ ["add_owner"]) ++ ["get_affiliation"].

(** The text of the stand-in document of [publish]. *)
Definition placeholder : string := "<test xmlns='test'>hello world</test>".

Fixpoint lookup {A} (name : string) (table : list (string * A)) : option A :=
  match table with
  | [] => None
  | (k, v) :: rest => if String.eqb name k then Some v else lookup name rest
  end.

Section Methods.

Variable W : World.
Variable self : PubsubClient.

(** [await self['xep_0060'].method(...)]: the request goes out and the
    plugin's answer comes back, as a result stanza or as an exception. *)
Definition await (r : xep_0060.Request) : Run Iq :=
  emit (EvRequest r) ;;
  match xep_0060_send W r with
  | Ok iq => ret iq
  | Raise e => raise e
  end.

Definition fromstring (text : string) : Run Element :=
  match ET_fromstring W text with
  | Ok e => ret e
  | Raise e => raise e
  end.

(** [await self.get_roster()], [self.send_presence()], [self.disconnect()]. *)
Definition roster : Run unit :=
  emit EvRoster ;;
  match get_roster W with
  | Ok _ => ret tt
  | Raise e => raise e
  end.

Definition send_presence : Run unit := emit EvPresence.

Definition disconnect : Run unit := emit EvDisconnect.

Definition nodes : Run unit :=
  try_except_XMPPError
    (result <- await (xep_0060.get_nodes (pubsub_server self) (node self)) ;;
     for_each (disco_items result) (fun item => logging.info "  - %s" [item]))
    (fun error => logging.error "Could not retrieve node list: %s" [error]).

Definition create : Run unit :=
  try_except_XMPPError
    (await (xep_0060.create_node (pubsub_server self) (node self)) ;;
     logging.info "Created node %s" [Py.str (node self)])
    (fun error =>
       logging.error "Could not create node %s: %s" [Py.str (node self); error]).

Definition delete : Run unit :=
  try_except_XMPPError
    (await (xep_0060.delete_node (pubsub_server self) (node self)) ;;
     logging.info "Deleted node %s" [Py.str (node self)])
    (fun error =>
       logging.error "Could not delete node %s: %s" [Py.str (node self); error]).

Definition get_configure : Run unit :=
  try_except_XMPPError
    (configuration_form <-
       await (xep_0060.get_node_config (pubsub_server self) (node self)) ;;
     logging.info "Configure form received from node %s: %s"
       [Py.str (node self); configure_form configuration_form])
    (fun error =>
       logging.error "Could not retrieve configure form from node %s: %s"
         [Py.str (node self); error]).

Definition publish : Run unit :=
  payload <- (if Py.truthy (data self)
              then fromstring (Py.str (data self))
              else fromstring placeholder) ;;
  try_except_XMPPError
    (result <- await (xep_0060.publish (pubsub_server self) (node self) payload) ;;
     logging.info "Published at item id: %s" [publish_item_id result])
    (fun error =>
       logging.error "Could not publish to %s: %s" [Py.str (node self); error]).

Definition get : Run unit :=
  try_except_XMPPError
    (result <-
       await (xep_0060.get_item (pubsub_server self) (node self) (data self)) ;;
     for_each (items_substanzas result) (fun item =>
       logging.info "Retrieved item %s: %s" [id item; tostring (payload item)]))
    (fun error =>
       logging.error "Could not retrieve item %s from node %s: %s"
         [Py.str (data self); Py.str (node self); error]).

Definition retract : Run unit :=
  try_except_XMPPError
    (await (xep_0060.retract (pubsub_server self) (node self) (data self)) ;;
     logging.info "Retracted item %s from node %s"
       [Py.str (data self); Py.str (node self)])
    (fun error =>
       logging.error "Could not retract item %s from node %s: %s"
         [Py.str (data self); Py.str (node self); error]).

Definition purge : Run unit :=
  try_except_XMPPError
    (await (xep_0060.purge (pubsub_server self) (node self)) ;;
     logging.info "Purged all items from node %s" [Py.str (node self)])
    (fun error =>
       logging.error "Could not purge items from node %s: %s"
         [Py.str (node self); error]).

Definition subscribe : Run unit :=
  try_except_XMPPError
    (iq <- await (xep_0060.subscribe (pubsub_server self) (node self)) ;;
     logging.info "Subscribed %s to node %s"
       [subscription_jid iq; subscription_node iq])
    (fun error =>
       logging.error "Could not subscribe %s to node %s: %s"
         [boundjid_bare W; Py.str (node self); error]).

Definition unsubscribe : Run unit :=
  try_except_XMPPError
    (await (xep_0060.unsubscribe (pubsub_server self) (node self)) ;;
     logging.info "Unsubscribed %s from node %s"
       [boundjid_bare W; Py.str (node self)])
    (fun error =>
       logging.error "Could not unsubscribe %s from node %s: %s"
         [boundjid_bare W; Py.str (node self); error]).

(** The f-string of the two affiliation handlers is evaluated before the
    call, so the record has a finished message and no arguments. *)
Definition get_affiliation : Run unit :=
  try_except_XMPPError
    (iq <- await (xep_0060.get_affiliations (pubsub_server self) (node self)) ;;
     let affiliation := affiliations_affiliation iq in
     logging.info
       ("Affiliations for " ++ boundjid_bare W ++ " " ++ Py.str (node self)
          ++ " " ++ affiliation) [])
    (fun error =>
       logging.error "Could not get affiliations"
         [boundjid_bare W; Py.str (node self); error]).

(** [self.data.split(",")] is evaluated before the [try]; on [None] the
    attribute lookup fails. *)
Definition add_owner : Run unit :=
  pieces <- match data self with
            | Some d => ret (Py.split "," d)
            | None =>
                raise (AttributeError "'NoneType' object has no attribute 'split'")
            end ;;
  let affiliations := map (fun new_owner => (new_owner, "owner")) pieces in
  try_except_XMPPError
    (iq <- await (xep_0060.modify_affiliations (pubsub_server self) (node self)
                    affiliations) ;;
     let affiliation := iq_str iq in
     logging.info
       ("Affiliations for " ++ boundjid_bare W ++ " " ++ Py.str (node self)
          ++ " " ++ affiliation) [])
    (fun error =>
       logging.error "Could not get affiliations"
         [boundjid_bare W; Py.str (node self); error]).

(** The coroutine methods of the class that take no argument. *)
Definition methods : list (string * Run unit) :=
  [("nodes", nodes); ("create", create); ("delete", delete);
   ("get_configure", get_configure); ("publish", publish); ("get", get);
   ("retract", retract); ("purge", purge); ("subscribe", subscribe);
   ("unsubscribe", unsubscribe); ("get_affiliation", get_affiliation);
   ("add_owner", add_owner)].

(** The attributes of the client that hold plain data: those [__init__]
    sets and the three paths the script sets. *)
Definition data_attributes : list string :=
  ["actions"; "action"; "node"; "data"; "pubsub_server";
   "ca_certs"; "certfile"; "keyfile"].

(** [await getattr(self, name)()].  The name is looked up among the
    attributes of the object, not in [self.actions]: a handler is entered
    ([EvCall]); [start] and [__init__] want an argument; [get_roster] is the
    coroutine [start] itself awaits; a data attribute is not callable; any
    other name is left to the classes the client inherits from, and fails
    with AttributeError when they do not have it either. *)
Definition getattr_call (name : string) : Run unit :=
  match lookup name methods with
  | Some coroutine => emit (EvCall name) ;; coroutine
  | None =>
      if Py.mem name ["start"; "__init__"] then
        raise (TypeError "missing required positional argument")
      else if String.eqb name "get_roster" then roster
      else if Py.mem name data_attributes then
        raise (TypeError "object is not callable")
      else match inherited W name with
           | Some call => call
           | None => raise (AttributeError name)
           end
  end.

(** The handler of the session_start event. *)
Definition start : Run unit :=
  roster ;;
  send_presence ;;
  try_except (getattr_call (action self))
    (fun _ => logging.exception "Could not execute %s:" [action self]) ;;
  disconnect.

End Methods.

(** ** The script body *)

(** The list the parser is given for the positional [action] (lines 144 to
    146). *)
Definition choices : list string :=
  (["nodes"; "create"; "delete"; "get_configure"; "purge"; "subscribe";
    "unsubscribe"; "publish"; "retract"; "get"] ++ ["add_owner"])
    ++ ["get_affiliation"].

(** The command line once the options are scanned: what [parse_args] returns
    when it returns.  [node] and [data] are declared with [nargs='?'], so an
    omitted one is [None]. *)
Record Namespace := mkNamespace {
  loglevel : Level;
  args_jid : option string;
  args_password : option string;
  args_server : string;
  args_action : string;
  args_node : option string;
  args_data : option string
}.

(** The check [choices=choices] adds to [parse_args]: a value outside the
    list makes the parser print its usage and exit with status 2. *)
Definition parse_args (argv : Namespace) : Run Namespace :=
  if Py.mem (args_action argv) choices then ret argv
  else raise (SystemExit 2).

(** The builtin [exit()]. *)
Definition exit {A} : Run A := raise (SystemExit 0).

Definition CERT_DIR : string := "certs/".

Section Script.

Variable W : World.

(** [xmpp.connect()] followed by [xmpp.process(forever=False)]: when the
    session gets established the stack fires session_start, which runs
    [start]; an exception that leaves [start] stays inside the stack's event
    loop.  The events are those of the script up to the point where [start]
    has ended.  The result [Ok tt] says that no exception ends the script
    here; [process] itself returns only after a disconnect, so when no
    session gets established, or when [start] is left before its
    [disconnect], the real script stays in the event loop. *)
Definition connect_and_process (xmpp : PubsubClient) : Run unit :=
  emit EvConnect ;;
  if session_established W then (events (start W xmpp), Ok tt) else ret tt.

Definition main (argv : Namespace) : Run unit :=
  args <- parse_args argv ;;
  let xmpp := mkPubsubClient (args_jid args) (args_password args)
                (args_server args) (args_node args) (args_action args)
                (args_data args) in
  let ca_certs := (CERT_DIR ++ "/server_ca.pem")%string in
  let certfile := (CERT_DIR ++ "/client.pem")%string in
  let keyfile := (CERT_DIR ++ "/client.key")%string in
  (if os_path_isdir W CERT_DIR then
     (if negb (os_path_isfile W ca_certs) then
        m <- percent "CA Certificate not found at %s" [ca_certs] ;;
        logging.critical m [] ;;
        exit
      else ret tt) ;;
     (if negb (os_path_isfile W certfile) then
        m <- percent "Client Certificate not found at %s" [certfile] ;;
        logging.error m []
      else ret tt) ;;
     (if negb (os_path_isfile W keyfile) then
        m <- percent "Client Key not found at %s" [ca_certs] ;;
        logging.error m []
      else ret tt)
   else
     m <- percent "Certificate Directory not found at %s" [os_getcwd W] ;;
     logging.critical m [] ;;
     exit) ;;
  connect_and_process xmpp.

End Script.

(** ** Reading a run *)

(** The requests handed to the plugin, in order. *)
Fixpoint requests (t : list event) : list xep_0060.Request :=
  match t with
  | [] => []
  | EvRequest r :: rest => r :: requests rest
  | _ :: rest => requests rest
  end.

(** The logging calls, in order. *)
Fixpoint log_records (t : list event) : list LogRecord :=
  match t with
  | [] => []
  | EvLog r :: rest => r :: log_records rest
  | _ :: rest => log_records rest
  end.

(** The lines that reach the log under a threshold. *)
Fixpoint log_lines (threshold : Level) (rs : list LogRecord) : list string :=
  match rs with
  | [] => []
  | r :: rest =>
      match emitted threshold r with
      | Some line => line :: log_lines threshold rest
      | None => log_lines threshold rest
      end
  end.

Definition is_disconnect (ev : event) : bool :=
  match ev with EvDisconnect => true | _ => false end.

Definition is_call (ev : event) : bool :=
  match ev with EvCall _ => true | _ => false end.

(** Events that go to the network. *)
Definition is_network (ev : event) : bool :=
  match ev with
  | EvConnect | EvRoster | EvPresence | EvRequest _ => true
  | _ => false
  end.

(** What an action handler may do: hand a request to the plugin, and log. *)
Definition is_handler_event (ev : event) : bool :=
  match ev with
  | EvRequest _ | EvLog _ => true
  | _ => false
  end.

(** The thresholds the command line can set. *)
Definition configurable (l : Level) : bool :=
  match l with
  | DEBUG | INFO | ERROR => true
  | CRITICAL => false
  end.

(** The attribute lookup of [getattr_call] as a test: whether the name is an
    attribute of the client at all. *)
Definition hasattr (W : World) (self : PubsubClient) (name : string) : bool :=
  match lookup name (methods W self) with Some _ => true | None => false end
  || Py.mem name ["start"; "__init__"]
  || String.eqb name "get_roster"
  || Py.mem name data_attributes
  || match inherited W name with Some _ => true | None => false end.

(** ** The shape of a handler run *)

(** A computation that only logs. *)
Definition logs (rs : list LogRecord) : Run unit := (map EvLog rs, Ok tt).

(** The run of a handler that hands [req] to the plugin inside its [try]:
    on a result stanza it logs [on_success]; on an XMPPError it logs
    [on_fault] and returns; any other exception leaves the handler. *)
Definition handled (W : World) (req : xep_0060.Request)
    (on_success : Iq -> list LogRecord) (on_fault : string -> LogRecord)
  : Run unit :=
  match xep_0060_send W req with
  | Ok iq => (EvRequest req :: map EvLog (on_success iq), Ok tt)
  | Raise (XMPPError e) => ([EvRequest req; EvLog (on_fault e)], Ok tt)
  | Raise x => ([EvRequest req], Raise x)
  end.

(** ** What the specification asks of a handler that met a fault *)




(** Dispatch refuses the action of [self]: an exception, and nothing done
    before it. *)
Definition rejected_at_dispatch (W : World) (self : PubsubClient) : Prop :=
  exists e, getattr_call W self (action self) = ([], Raise e).

(** ** Reading a request and the verbosity options *)

(** The server a request is addressed to. *)
Definition request_server (r : xep_0060.Request) : string :=
  match r with
  | xep_0060.get_nodes s _ | xep_0060.create_node s _
  | xep_0060.delete_node s _ | xep_0060.get_node_config s _
  | xep_0060.publish s _ _ | xep_0060.get_item s _ _
  | xep_0060.retract s _ _ | xep_0060.purge s _
  | xep_0060.subscribe s _ | xep_0060.unsubscribe s _
  | xep_0060.get_affiliations s _ | xep_0060.modify_affiliations s _ _ => s
  end.

(** The node a request is addressed to. *)
Definition request_node (r : xep_0060.Request) : option string :=
  match r with
  | xep_0060.get_nodes _ n | xep_0060.create_node _ n
  | xep_0060.delete_node _ n | xep_0060.get_node_config _ n
  | xep_0060.publish _ n _ | xep_0060.get_item _ n _
  | xep_0060.retract _ n _ | xep_0060.purge _ n
  | xep_0060.subscribe _ n | xep_0060.unsubscribe _ n
  | xep_0060.get_affiliations _ n | xep_0060.modify_affiliations _ n _ => n
  end.

(** The records of a [handled] run are plain: those of the body are at
    level INFO, the one of the clause is at level ERROR, and none carries
    exception information. *)
Definition well_levelled (on_success : Iq -> list LogRecord)
    (on_fault : string -> LogRecord) : Prop :=
  (forall iq r, In r (on_success iq) -> levelname r = INFO /\ exc_info r = false)
  /\ (forall e, levelname (on_fault e) = ERROR /\ exc_info (on_fault e) = false).

(** The options [-q] and [-d] (lines 155 to 164).  Both are [store_const]
    options with destination [loglevel] and default INFO. *)
Inductive Verbosity := quiet | debug.

Definition store_const (v : Verbosity) : Level :=
  match v with
  | quiet => ERROR
  | debug => DEBUG
  end.

(** The [loglevel] the parser ends with: each occurrence of an option
    overwrites the destination, in the order of the command line. *)
Definition parse_loglevel (options : list Verbosity) : Level :=
  fold_left (fun _ v => store_const v) options INFO.

(** The client the script builds from the parsed command line (lines 185 to
    189). *)
Definition client_of (args : Namespace) : PubsubClient :=
  mkPubsubClient (args_jid args) (args_password args) (args_server args)
    (args_node args) (args_action args) (args_data args).

(** ** Sample worlds *)

Definition empty_iq : Iq := mkIq [] "" "" [] "" "" "" "".

(** An answer that carries the item item42. *)
Definition item42_iq : Iq :=
  mkIq [] "" "" [mkItem "item42" (mkElement "<entry/>")] "" "" "" "".

(** An answer that lists two nodes. *)
Definition two_nodes_iq : Iq :=
  mkIq ["('pubsub.example.org', 'n1', None)"; "('pubsub.example.org', 'n2', None)"]
    "" "" [] "" "" "" "".

(** A parser for the samples: it takes any text that opens with a tag. *)
Definition sample_parser (text : string) : Result Element :=
  if String.prefix "<" text then Ok (mkElement text)
  else Raise (ParseError text).

(** A world in which the certificate material is complete, the session gets
    established, the roster arrives and the plugin gives [answer] to every
    request. *)
Definition answering (answer : Result Iq) : World :=
  mkWorld sample_parser (Ok tt) (fun _ => answer) "romeo@example.org"
    (fun _ => None) true (fun _ => true) (fun _ => true) "/home/romeo".

Definition conflict : Exception := XMPPError "cancel: conflict".

(** The same, with one file of the certificate directory missing. *)
Definition without_file (missing : string) : World :=
  mkWorld sample_parser (Ok tt) (fun _ => Ok empty_iq) "romeo@example.org"
    (fun _ => None) true (fun _ => true)
    (fun path => negb (String.eqb path missing)) "/home/romeo".

(** A world in which roster retrieval times out. *)
Definition without_roster : World :=
  mkWorld sample_parser (Raise (XMPPError "cancel: remote-server-timeout"))
    (fun _ => Ok empty_iq) "romeo@example.org"
    (fun _ => None) true (fun _ => true) (fun _ => true) "/home/romeo".

(** The same, without the certificate directory. *)
Definition without_directory : World :=
  mkWorld sample_parser (Ok tt) (fun _ => Ok empty_iq) "romeo@example.org"
    (fun _ => None) true (fun _ => false) (fun _ => false) "/home/romeo".

Definition sample_client (name : string) (n d : option string) : PubsubClient :=
  mkPubsubClient (Some "romeo@example.org") (Some "secret")
    "pubsub.example.org" n name d.

Definition sample_argv (name : string) (n d : option string) : Namespace :=
  mkNamespace INFO (Some "romeo@example.org") (Some "secret")
    "pubsub.example.org" name n d.

(** * Properties *)

(** ** Strings *)

Lemma split_not_nil (sep : ascii) (s : string) : Py.split sep s <> [].
Proof.
  destruct s as [|c rest]; simpl; [discriminate|].
  destruct (Ascii.eqb c sep); [discriminate|].
  destruct (Py.split sep rest); discriminate.
Qed.

(** One piece more than there are separators: never zero pieces. *)
Lemma split_length (sep : ascii) (s : string) :
  length (Py.split sep s) = S (Py.count sep s).
Proof.
  induction s as [|c rest IH]; simpl; [reflexivity|].
  destruct (Ascii.eqb c sep); simpl; [now rewrite IH|].
  destruct (Py.split sep rest) as [|w ws] eqn:E; simpl in *; [discriminate|].
  exact IH.
Qed.

(** Joining the pieces gives the string back. *)
Lemma join_split (sep : ascii) (s : string) :
  Py.join sep (Py.split sep s) = s.
Proof.
  induction s as [|c rest IH]; simpl; [reflexivity|].
  pose proof (split_not_nil sep rest) as NE.
  destruct (Py.split sep rest) as [|w ws]; [congruence|].
  destruct (Ascii.eqb c sep) eqn:E.
  - apply Ascii.eqb_eq in E; subst c.
    rewrite <- IH. reflexivity.
  - rewrite <- IH. destruct ws; reflexivity.
Qed.

Lemma append_empty_r (s : string) : (s ++ "")%string = s.
Proof. induction s as [|c s IH]; simpl; congruence. Qed.




(** Splits off the first alternative of a membership [x = a \/ rest]. *)
Ltac first_of H :=
  match type of H with
  | _ \/ _ => destruct H as [<-|H]
  end.

(** ** The monad and the handlers *)

Lemma for_each_info {A} (xs : list A) (m : string) (f : A -> list string) :
  for_each xs (fun x => logging.info m (f x))
  = logs (map (fun x => mkLog INFO m (f x) false) xs).
Proof.
  induction xs as [|x rest IH]; [reflexivity|].
  simpl. rewrite IH. reflexivity.
Qed.

Lemma bind_ret_l {A B} (a : A) (k : A -> Run B) : bind (ret a) k = k a.
Proof. unfold bind, ret. destruct (k a); reflexivity. Qed.

(** A [try] around one awaited request, with a body and a clause that only
    log, runs as [handled] says. *)
Lemma try_await (W : World) (req : xep_0060.Request)
    (body : Iq -> Run unit) (clause : string -> Run unit)
    (on_success : Iq -> list LogRecord) (on_fault : string -> LogRecord) :
  (forall iq, body iq = logs (on_success iq)) ->
  (forall e, clause e = logs [on_fault e]) ->
  try_except_XMPPError (bind (await W req) body) clause
  = handled W req on_success on_fault.
Proof.
  intros Hbody Hclause. unfold handled, await.
  destruct (xep_0060_send W req) as [iq|x]; simpl.
  - rewrite Hbody. reflexivity.
  - destruct x; try reflexivity. rewrite Hclause. reflexivity.
Qed.

Section Handlers.

Variable W : World.
Variable self : PubsubClient.

Let server := pubsub_server self.
Let n := node self.

Lemma nodes_run :
  nodes W self
  = handled W (xep_0060.get_nodes server n)
      (fun iq => map (fun item => mkLog INFO "  - %s" [item] false) (disco_items iq))
      (fun e => mkLog ERROR "Could not retrieve node list: %s" [e] false).
Proof. apply try_await; intros; [apply for_each_info|reflexivity]. Qed.

Lemma create_run :
  create W self
  = handled W (xep_0060.create_node server n)
      (fun _ => [mkLog INFO "Created node %s" [Py.str n] false])
      (fun e => mkLog ERROR "Could not create node %s: %s" [Py.str n; e] false).
Proof. apply try_await; reflexivity. Qed.

Lemma delete_run :
  delete W self
  = handled W (xep_0060.delete_node server n)
      (fun _ => [mkLog INFO "Deleted node %s" [Py.str n] false])
      (fun e => mkLog ERROR "Could not delete node %s: %s" [Py.str n; e] false).
Proof. apply try_await; reflexivity. Qed.

Lemma get_configure_run :
  get_configure W self
  = handled W (xep_0060.get_node_config server n)
      (fun iq => [mkLog INFO "Configure form received from node %s: %s"
                    [Py.str n; configure_form iq] false])
      (fun e => mkLog ERROR "Could not retrieve configure form from node %s: %s"
                  [Py.str n; e] false).
Proof. apply try_await; reflexivity. Qed.

Lemma publish_run :
  publish W self
  = match ET_fromstring W (if Py.truthy (data self) then Py.str (data self)
                           else placeholder) with
    | Ok document =>
        handled W (xep_0060.publish server n document)
          (fun iq => [mkLog INFO "Published at item id: %s" [publish_item_id iq] false])
          (fun e => mkLog ERROR "Could not publish to %s: %s" [Py.str n; e] false)
    | Raise x => ([], Raise x)
    end.
Proof.
  unfold publish, fromstring.
  destruct (Py.truthy (data self));
    (destruct (ET_fromstring W _) as [document|x]; [|reflexivity]);
    rewrite bind_ret_l; apply try_await; reflexivity.
Qed.

Lemma get_run :
  get W self
  = handled W (xep_0060.get_item server n (data self))
      (fun iq => map (fun item => mkLog INFO "Retrieved item %s: %s"
                                    [id item; tostring (payload item)] false)
                   (items_substanzas iq))
      (fun e => mkLog ERROR "Could not retrieve item %s from node %s: %s"
                  [Py.str (data self); Py.str n; e] false).
Proof.
  apply try_await; intros; [|reflexivity].
  apply (for_each_info _ _ (fun item => [id item; tostring (payload item)])).
Qed.

Lemma retract_run :
  retract W self
  = handled W (xep_0060.retract server n (data self))
      (fun _ => [mkLog INFO "Retracted item %s from node %s"
                   [Py.str (data self); Py.str n] false])
      (fun e => mkLog ERROR "Could not retract item %s from node %s: %s"
                  [Py.str (data self); Py.str n; e] false).
Proof. apply try_await; reflexivity. Qed.

Lemma purge_run :
  purge W self
  = handled W (xep_0060.purge server n)
      (fun _ => [mkLog INFO "Purged all items from node %s" [Py.str n] false])
      (fun e => mkLog ERROR "Could not purge items from node %s: %s"
                  [Py.str n; e] false).
Proof. apply try_await; reflexivity. Qed.

Lemma subscribe_run :
  subscribe W self
  = handled W (xep_0060.subscribe server n)
      (fun iq => [mkLog INFO "Subscribed %s to node %s"
                    [subscription_jid iq; subscription_node iq] false])
      (fun e => mkLog ERROR "Could not subscribe %s to node %s: %s"
                  [boundjid_bare W; Py.str n; e] false).
Proof. apply try_await; reflexivity. Qed.

Lemma unsubscribe_run :
  unsubscribe W self
  = handled W (xep_0060.unsubscribe server n)
      (fun _ => [mkLog INFO "Unsubscribed %s from node %s"
                   [boundjid_bare W; Py.str n] false])
      (fun e => mkLog ERROR "Could not unsubscribe %s from node %s: %s"
                  [boundjid_bare W; Py.str n; e] false).
Proof. apply try_await; reflexivity. Qed.

Lemma get_affiliation_run :
  get_affiliation W self
  = handled W (xep_0060.get_affiliations server n)
      (fun iq => [mkLog INFO
                    ("Affiliations for " ++ boundjid_bare W ++ " " ++ Py.str n
                       ++ " " ++ affiliations_affiliation iq) [] false])
      (fun e => mkLog ERROR "Could not get affiliations"
                  [boundjid_bare W; Py.str n; e] false).
Proof. apply try_await; reflexivity. Qed.

Lemma add_owner_run :
  add_owner W self
  = match data self with
    | Some d =>
        handled W
          (xep_0060.modify_affiliations server n
             (map (fun new_owner => (new_owner, "owner")) (Py.split "," d)))
          (fun iq => [mkLog INFO
                        ("Affiliations for " ++ boundjid_bare W ++ " " ++ Py.str n
                           ++ " " ++ iq_str iq) [] false])
          (fun e => mkLog ERROR "Could not get affiliations"
                      [boundjid_bare W; Py.str n; e] false)
    | None => ([], Raise (AttributeError "'NoneType' object has no attribute 'split'"))
    end.
Proof.
  unfold add_owner.
  destruct (data self) as [d|]; [|reflexivity].
  rewrite bind_ret_l. apply try_await; reflexivity.
Qed.

End Handlers.

(** ** Facts about [handled] *)

Section Handled.

Variable W : World.
Variable req : xep_0060.Request.
Variable on_success : Iq -> list LogRecord.
Variable on_fault : string -> LogRecord.

Let h := handled W req on_success on_fault.

Lemma forallb_logs (rs : list LogRecord) :
  forallb is_handler_event (map EvLog rs) = true.
Proof. induction rs; simpl; auto. Qed.

Lemma requests_logs (rs : list LogRecord) : requests (map EvLog rs) = [].
Proof. induction rs; simpl; auto. Qed.

Lemma log_records_logs (rs : list LogRecord) : log_records (map EvLog rs) = rs.
Proof. induction rs; simpl; congruence. Qed.

Lemma handled_events : forallb is_handler_event (events h) = true.
Proof.
  unfold h, handled.
  destruct (xep_0060_send W req) as [iq|[]]; simpl; auto using forallb_logs.
Qed.

Lemma handled_requests : requests (events h) = [req].
Proof.
  unfold h, handled.
  destruct (xep_0060_send W req) as [iq|[]]; simpl; auto.
  now rewrite requests_logs.
Qed.

Lemma handled_ok (iq : Iq) :
  xep_0060_send W req = Ok iq ->
  h = (EvRequest req :: map EvLog (on_success iq), Ok tt).
Proof. intros E. unfold h, handled. now rewrite E. Qed.

Lemma handled_fault (e : string) :
  xep_0060_send W req = Raise (XMPPError e) ->
  h = ([EvRequest req; EvLog (on_fault e)], Ok tt).
Proof. intros E. unfold h, handled. now rewrite E. Qed.

(** Whatever leaves the handler was raised by the plugin, and is not an
    XMPPError. *)
Lemma handled_raises (x : Exception) :
  result h = Raise x ->
  xep_0060_send W req = Raise x /\ forall e, x <> XMPPError e.
Proof.
  unfold h, handled.
  destruct (xep_0060_send W req) as [iq|[]]; simpl; intros E;
    inversion E; subst; split; auto; discriminate.
Qed.

End Handled.

(** Every run of an action handler is the run of one request inside a
    [try], unless the handler failed before it built a request. *)
Lemma handler_cases (W : World) (self : PubsubClient) (name : string)
    (h : Run unit) :
  lookup name (methods W self) = Some h ->
  (exists x, h = ([], Raise x)) \/
  (exists req on_success on_fault, h = handled W req on_success on_fault).
Proof.
  unfold methods. simpl.
  repeat (destruct (String.eqb name _);
          [intros E; injection E as <-|]); try discriminate.
  - right. rewrite nodes_run. eauto.
  - right. rewrite create_run. eauto.
  - right. rewrite delete_run. eauto.
  - right. rewrite get_configure_run. eauto.
  - rewrite publish_run. destruct (ET_fromstring W _); eauto.
  - right. rewrite get_run. eauto.
  - right. rewrite retract_run. eauto.
  - right. rewrite purge_run. eauto.
  - right. rewrite subscribe_run. eauto.
  - right. rewrite unsubscribe_run. eauto.
  - right. rewrite get_affiliation_run. eauto.
  - rewrite add_owner_run. destruct (data self); eauto.
Qed.

(** An action handler only hands requests to the plugin and logs, and it
    hands over at most one request. *)
Lemma handler_events (W : World) (self : PubsubClient) (name : string)
    (h : Run unit) :
  lookup name (methods W self) = Some h ->
  forallb is_handler_event (events h) = true /\ length (requests (events h)) <= 1.
Proof.
  intros L. destruct (handler_cases _ _ _ _ L) as [[x ->]|(req & s & f & ->)].
  - simpl. auto.
  - rewrite handled_events, handled_requests. simpl. auto.
Qed.

(** The twelve names all have a handler. *)
Lemma actions_have_handlers (W : World) (self : PubsubClient) (name : string) :
  In name actions -> exists h, lookup name (methods W self) = Some h.
Proof.
  unfold actions. simpl.
  intros H. repeat (first_of H; [simpl; eauto|]). contradiction.
Qed.

Lemma filter_handler_events (f : event -> bool) (t : list event) :
  (forall ev, is_handler_event ev = true -> f ev = false) ->
  forallb is_handler_event t = true -> filter f t = [].
Proof.
  intros Hf. induction t as [|ev t IH]; simpl; [reflexivity|].
  intros H. apply andb_prop in H as [H1 H2].
  rewrite (Hf _ H1). auto.
Qed.

(** [start], once the roster has arrived and the action has a handler. *)
Lemma start_run (W : World) (self : PubsubClient) (h : Run unit) :
  get_roster W = Ok tt ->
  lookup (action self) (methods W self) = Some h ->
  start W self =
    (EvRoster :: EvPresence :: EvCall (action self) :: events h
       ++ match result h with
          | Ok _ => []
          | Raise _ => [EvLog (mkLog ERROR "Could not execute %s:" [action self] true)]
          end ++ [EvDisconnect],
     Ok tt).
Proof.
  intros R L. unfold start, roster, getattr_call. rewrite R, L.
  destruct h as [t [[]|x]]; simpl; rewrite ?app_nil_r, <- ?app_assoc; reflexivity.
Qed.

(** ** The lifecycle *)

(** C1, as the claim states it, fails when roster retrieval raises: the
    statement that awaits the roster is before the [try] of [start], so the
    exception leaves [start] at once.  The run has reached the session
    event with one of the twelve actions, and there is no presence, no
    handler and no disconnect in it. *)
Lemma start_without_roster_never_disconnects :
  In "create" actions /\
  start without_roster (sample_client "create" (Some "mynode") None)
  = ([EvRoster], Raise (XMPPError "cancel: remote-server-timeout")) /\
  length (filter is_disconnect
            (events (start without_roster
                       (sample_client "create" (Some "mynode") None)))) <> 1.
Proof.
  split; [simpl; tauto|]. split; [reflexivity|]. discriminate.
Qed.

(** C1, amended.  For each of the twelve actions and whatever the handler does
    (it returns, it logs a fault, or an exception leaves it), a run of
    [start] in which the roster arrives retrieves the roster, announces
    presence, enters exactly one handler, and calls [disconnect] exactly
    once, as its last step; an exception that leaves the handler is logged
    with the action name by [start] and does not leave [start]. *)
Theorem start_runs_one_action_then_disconnects (W : World) (self : PubsubClient) :
  In (action self) actions ->
  get_roster W = Ok tt ->
  exists h,
    lookup (action self) (methods W self) = Some h /\
    forallb is_handler_event (events h) = true /\
    start W self =
      (EvRoster :: EvPresence :: EvCall (action self) :: events h
         ++ match result h with
            | Ok _ => []
            | Raise _ =>
                [EvLog (mkLog ERROR "Could not execute %s:" [action self] true)]
            end ++ [EvDisconnect],
       Ok tt) /\
    length (filter is_call (events (start W self))) = 1 /\
    length (filter is_disconnect (events (start W self))) = 1.
Proof.
  intros A R.
  destruct (actions_have_handlers W self _ A) as [h L].
  destruct (handler_events _ _ _ _ L) as [Hev _].
  exists h. rewrite (start_run _ _ _ R L).
  repeat split; auto; simpl; rewrite !filter_app.
  - rewrite (filter_handler_events is_call _ (fun ev => ltac:(now destruct ev)) Hev).
    destruct (result h); reflexivity.
  - rewrite (filter_handler_events is_disconnect _ (fun ev => ltac:(now destruct ev)) Hev).
    destruct (result h); reflexivity.
Qed.

Lemma start_runs_one_action_then_disconnects_witness :
  In "create" actions /\
  get_roster (answering (Raise conflict)) = Ok tt /\
  length (filter is_disconnect
            (events (start (answering (Raise conflict))
                       (sample_client "create" (Some "mynode") None)))) = 1.
Proof.
  assert (A : In "create" actions) by (simpl; tauto).
  assert (R : get_roster (answering (Raise conflict)) = Ok tt) by reflexivity.
  split; [exact A|]. split; [exact R|].
  destruct (start_runs_one_action_then_disconnects (answering (Raise conflict))
              (sample_client "create" (Some "mynode") None) A R)
    as (h & _ & _ & _ & _ & D).
  exact D.
Defined.

(** [start] when the roster does not arrive: the exception leaves [start]
    before presence, action and disconnect.  (The [try] of [start] begins
    after the first two statements.) *)
Lemma start_without_roster (W : World) (self : PubsubClient) (x : Exception) :
  get_roster W = Raise x -> start W self = ([EvRoster], Raise x).
Proof. intros R. unfold start, roster. rewrite R. reflexivity. Qed.

(** ** add_owner *)

(** The batch of [add_owner] has one entry per piece of the data, so one
    more than the data has commas. *)
Lemma add_owner_batch (W : World) (self : PubsubClient) (d : string) :
  data self = Some d ->
  exists batch,
    requests (events (add_owner W self))
    = [xep_0060.modify_affiliations (pubsub_server self) (node self) batch] /\
    batch = map (fun new_owner => (new_owner, "owner")) (Py.split "," d) /\
    length batch = S (Py.count "," d).
Proof.
  intros D. rewrite add_owner_run, D, handled_requests.
  eexists. split; [reflexivity|]. split; [reflexivity|].
  now rewrite length_map, split_length.
Qed.

(** C3, as the claim states it, fails: with the empty string as data the
    batch of the request is not empty. *)
Lemma add_owner_empty_data_batch_not_empty :
  ~ (exists server n,
       requests (events (add_owner (answering (Ok empty_iq))
                           (sample_client "add_owner" (Some "n1") (Some ""))))
       = [xep_0060.modify_affiliations server n []]).
Proof. intros (server & n & E). vm_compute in E. discriminate E. Qed.

(** C3, amended.  With the empty string as data, [add_owner] hands the plugin
    one modify-affiliations request whose batch has exactly one entry, the
    empty identity with role owner; the handler raises nothing of its own
    (an exception leaves it only if the plugin raised it). *)
Theorem add_owner_empty_data_one_entry (W : World) (self : PubsubClient) :
  data self = Some "" ->
  requests (events (add_owner W self))
  = [xep_0060.modify_affiliations (pubsub_server self) (node self) [("", "owner")]]
  /\ forall x, result (add_owner W self) = Raise x ->
       xep_0060_send W
         (xep_0060.modify_affiliations (pubsub_server self) (node self)
            [("", "owner")]) = Raise x.
Proof.
  intros D. rewrite add_owner_run, D. simpl. split.
  - apply handled_requests.
  - intros x E. now apply handled_raises in E.
Qed.

Lemma add_owner_empty_data_one_entry_witness :
  data (sample_client "add_owner" (Some "n1") (Some "")) = Some "" /\
  requests (events (add_owner (answering (Ok empty_iq))
                      (sample_client "add_owner" (Some "n1") (Some ""))))
  = [xep_0060.modify_affiliations "pubsub.example.org" (Some "n1") [("", "owner")]].
Proof.
  split; [reflexivity|].
  exact (proj1 (add_owner_empty_data_one_entry (answering (Ok empty_iq))
                  (sample_client "add_owner" (Some "n1") (Some "")) eq_refl)).
Defined.

(** C5.  With data a@x,b@x, [add_owner] hands the plugin a single
    modify-affiliations request whose batch has exactly two entries, a@x
    and b@x in that order, both with role owner. *)
Theorem add_owner_two_owners (W : World) (self : PubsubClient) :
  data self = Some "a@x,b@x" ->
  requests (events (add_owner W self))
  = [xep_0060.modify_affiliations (pubsub_server self) (node self)
       [("a@x", "owner"); ("b@x", "owner")]].
Proof.
  intros D. rewrite add_owner_run, D. simpl. apply handled_requests.
Qed.

Lemma add_owner_two_owners_witness :
  data (sample_client "add_owner" (Some "n1") (Some "a@x,b@x")) = Some "a@x,b@x" /\
  requests (events (add_owner (answering (Ok empty_iq))
                      (sample_client "add_owner" (Some "n1") (Some "a@x,b@x"))))
  = [xep_0060.modify_affiliations "pubsub.example.org" (Some "n1")
       [("a@x", "owner"); ("b@x", "owner")]].
Proof.
  split; [reflexivity|].
  exact (add_owner_two_owners (answering (Ok empty_iq))
           (sample_client "add_owner" (Some "n1") (Some "a@x,b@x")) eq_refl).
Defined.

(** ** Faults *)

Lemma in_requests (r : xep_0060.Request) (t : list event) :
  In (EvRequest r) t -> In r (requests t).
Proof.
  induction t as [|ev t IH]; simpl; [auto|].
  intros [->|H]; [now left|].
  destruct ev; simpl; auto.
Qed.

(** The request seen in a [handled] run is the one it was built around. *)
Lemma handled_request_in (W : World) (req0 req : xep_0060.Request)
    (on_success : Iq -> list LogRecord) (on_fault : string -> LogRecord) :
  In (EvRequest req) (events (handled W req0 on_success on_fault)) -> req = req0.
Proof.
  intros H. apply in_requests in H. rewrite handled_requests in H.
  destruct H as [H|[]]. congruence.
Qed.







(** ** publish *)

(** C4.  When the data is missing or empty, [publish] transmits the parsed
    stand-in document as the payload; when the data is a non-empty text the
    parser accepts, it transmits the document parsed from that text. *)
Theorem publish_payload (W : World) (self : PubsubClient) (document : Element) :
  (data self = None \/ data self = Some "" ->
   ET_fromstring W "<test xmlns='test'>hello world</test>" = Ok document ->
   requests (events (publish W self))
   = [xep_0060.publish (pubsub_server self) (node self) document])
  /\
  (forall d,
     data self = Some d -> d <> "" ->
     ET_fromstring W d = Ok document ->
     requests (events (publish W self))
     = [xep_0060.publish (pubsub_server self) (node self) document]).
Proof.
  split.
  - intros [D|D] P; rewrite publish_run, D; simpl; unfold placeholder;
      rewrite P; apply handled_requests.
  - intros d D NE P. rewrite publish_run, D.
    destruct d as [|c d]; [congruence|]. simpl.
    rewrite P. apply handled_requests.
Qed.

Lemma publish_payload_witness :
  requests (events (publish (answering (Ok empty_iq))
                      (sample_client "publish" (Some "n1") None)))
  = [xep_0060.publish "pubsub.example.org" (Some "n1")
       (mkElement "<test xmlns='test'>hello world</test>")]
  /\
  requests (events (publish (answering (Ok empty_iq))
                      (sample_client "publish" (Some "n1") (Some "<a>b</a>"))))
  = [xep_0060.publish "pubsub.example.org" (Some "n1") (mkElement "<a>b</a>")].
Proof.
  split.
  - apply (proj1 (publish_payload (answering (Ok empty_iq))
                    (sample_client "publish" (Some "n1") None)
                    (mkElement "<test xmlns='test'>hello world</test>")));
      [left; reflexivity|reflexivity].
  - apply (proj2 (publish_payload (answering (Ok empty_iq))
                    (sample_client "publish" (Some "n1") (Some "<a>b</a>"))
                    (mkElement "<a>b</a>")) "<a>b</a>");
      [reflexivity|discriminate|reflexivity].
Defined.

(** ** get *)

(** C7.  [get] hands the data to the item request as it is, whatever it is
    (missing and empty included).  When the request succeeds it logs one
    record per returned item, made of the id and the serialised payload of
    that item.  With node n1 and data item42 the request is for item item42
    of node n1, and when the answer carries that item, the log has the one
    line of item42. *)
Theorem get_passes_data_through (W : World) (self : PubsubClient) :
  let req := xep_0060.get_item (pubsub_server self) (node self) (data self) in
  requests (events (get W self)) = [req] /\
  (forall iq,
     xep_0060_send W req = Ok iq ->
     get W self
     = (EvRequest req ::
        map (fun item =>
               EvLog (mkLog INFO "Retrieved item %s: %s"
                        [id item; tostring (payload item)] false))
          (items_substanzas iq),
        Ok tt)) /\
  (forall iq document,
     node self = Some "n1" -> data self = Some "item42" ->
     xep_0060_send W req = Ok iq ->
     items_substanzas iq = [mkItem "item42" document] ->
     req = xep_0060.get_item (pubsub_server self) (Some "n1") (Some "item42") /\
     log_lines INFO (log_records (events (get W self)))
     = [("Retrieved item item42: " ++ tostring document)%string]).
Proof.
  intros req. rewrite get_run. split; [apply handled_requests|]. split.
  - intros iq E. rewrite (handled_ok _ _ _ _ _ E), map_map. reflexivity.
  - intros iq document N D E I. split; [unfold req; now rewrite N, D|].
    rewrite (handled_ok _ _ _ _ _ E), I. cbn.
    now rewrite append_empty_r.
Qed.

Lemma get_passes_data_through_witness :
  log_lines INFO
    (log_records (events (get (answering (Ok item42_iq))
                            (sample_client "get" (Some "n1") (Some "item42")))))
  = ["Retrieved item item42: <entry/>"].
Proof.
  apply (proj2 (proj2 (get_passes_data_through (answering (Ok item42_iq))
                         (sample_client "get" (Some "n1") (Some "item42"))))
           item42_iq (mkElement "<entry/>") eq_refl eq_refl eq_refl eq_refl).
Defined.

(** ** Dispatch and the parser *)

(** The list given to the parser and [self.actions] hold the same names. *)
Lemma choices_actions (name : string) : Py.mem name choices = Py.mem name actions.
Proof.
  unfold Py.mem, choices, actions. simpl.
  repeat match goal with
         | |- context [String.eqb name ?s] =>
             destruct (String.eqb name s); simpl; rewrite ?orb_true_r;
             try reflexivity
         end.
Qed.

Lemma main_refuses (W : World) (argv : Namespace) :
  Py.mem (args_action argv) choices = false ->
  main W argv = ([], Raise (SystemExit 2)).
Proof. intros P. unfold main, parse_args. now rewrite P. Qed.

(** A name the client has no attribute for makes the lookup fail. *)
Lemma getattr_missing (W : World) (self : PubsubClient) (name : string) :
  hasattr W self name = false ->
  getattr_call W self name = ([], Raise (AttributeError name)).
Proof.
  unfold hasattr, getattr_call. intros H.
  repeat match type of H with
         | (_ || _) = false => apply orb_false_iff in H; destruct H as [H ?]
         end.
  destruct (lookup name (methods W self)); [discriminate|].
  repeat match goal with
         | E : _ = false |- _ => rewrite E; clear E
         end.
  destruct (inherited W name); [discriminate|reflexivity].
Qed.

(** C6, as the claim states it, fails at dispatch.  The name get_roster is
    outside the twelve, yet [getattr_call] finds the coroutine of that name
    and runs it: nothing is raised and a roster request goes to the
    network. *)
Lemma dispatch_accepts_get_roster :
  Py.mem "get_roster" actions = false /\
  ~ rejected_at_dispatch (answering (Ok empty_iq))
      (sample_client "get_roster" None None) /\
  existsb is_network
    (events (getattr_call (answering (Ok empty_iq))
               (sample_client "get_roster" None None) "get_roster")) = true.
Proof.
  split; [reflexivity|]. split; [|reflexivity].
  intros [e E]. vm_compute in E. discriminate E.
Qed.

(** C6, amended.  A name outside the twelve is refused by the parser: the
    script exits with status 2 and has done nothing.  Dispatch makes no check
    against the twelve names; it looks the name up on the client.  When the
    client has no attribute of that name the lookup raises AttributeError
    before anything is done, [start] logs it, and the run sends no request
    to the plugin. *)
Theorem unknown_action_refused_by_parser (W : World) (name : string) :
  Py.mem name actions = false ->
  (forall argv, args_action argv = name ->
     main W argv = ([], Raise (SystemExit 2))) /\
  (forall self, action self = name ->
     hasattr W self name = false ->
     getattr_call W self name = ([], Raise (AttributeError name)) /\
     (get_roster W = Ok tt ->
      start W self
      = ([EvRoster; EvPresence;
          EvLog (mkLog ERROR "Could not execute %s:" [name] true);
          EvDisconnect], Ok tt))).
Proof.
  intros N. split.
  - intros argv <-. apply main_refuses. now rewrite choices_actions.
  - intros self A H. pose proof (getattr_missing _ _ _ H) as G.
    split; [exact G|]. intros R.
    unfold start, roster. rewrite R, A, G. reflexivity.
Qed.

Lemma unknown_action_refused_by_parser_witness :
  Py.mem "bogus" actions = false /\
  main (answering (Ok empty_iq)) (sample_argv "bogus" (Some "n1") None)
  = ([], Raise (SystemExit 2)) /\
  start (answering (Ok empty_iq)) (sample_client "bogus" (Some "n1") None)
  = ([EvRoster; EvPresence;
      EvLog (mkLog ERROR "Could not execute %s:" ["bogus"] true);
      EvDisconnect], Ok tt).
Proof.
  split; [reflexivity|]. split.
  - exact (proj1 (unknown_action_refused_by_parser (answering (Ok empty_iq))
                    "bogus" eq_refl)
             (sample_argv "bogus" (Some "n1") None) eq_refl).
  - exact (proj2 (proj2 (unknown_action_refused_by_parser
                           (answering (Ok empty_iq)) "bogus" eq_refl)
                    (sample_client "bogus" (Some "n1") None) eq_refl eq_refl)
             eq_refl).
Defined.

(** ** The certificate checks *)

(** [main] once the parser has accepted the action and the checks of the
    certificate directory have let the script through: the warnings, then
    the connection. *)
Lemma main_connects (W : World) (argv : Namespace) :
  Py.mem (args_action argv) choices = true ->
  os_path_isdir W "certs/" = true ->
  os_path_isfile W "certs//server_ca.pem" = true ->
  main W argv
  = ((if os_path_isfile W "certs//client.pem" then []
      else [EvLog (mkLog ERROR
                     "Client Certificate not found at certs//client.pem" [] false)])
       ++ (if os_path_isfile W "certs//client.key" then []
           else [EvLog (mkLog ERROR
                          "Client Key not found at certs//server_ca.pem" [] false)])
       ++ EvConnect ::
          (if session_established W
           then events (start W (mkPubsubClient (args_jid argv) (args_password argv)
                                   (args_server argv) (args_node argv)
                                   (args_action argv) (args_data argv)))
           else []),
     Ok tt).
Proof.
  intros P D CA. unfold main, parse_args, connect_and_process. rewrite P.
  rewrite bind_ret_l. unfold CERT_DIR. simpl append. rewrite D, CA.
  destruct (os_path_isfile W "certs//client.pem"),
    (os_path_isfile W "certs//client.key"),
    (session_established W); reflexivity.
Qed.

(** C8.  With an action the parser accepts: when the certificate directory
    is absent the script logs one critical line and exits, and so it does
    when the directory is there and the CA bundle is absent, in both cases
    without any network event; when directory and CA bundle are there and
    the client certificate or the client key is absent, an error is logged
    and the script goes on to connect. *)
Theorem certificate_checks (W : World) (argv : Namespace) :
  Py.mem (args_action argv) choices = true ->
  (os_path_isdir W "certs/" = false ->
   main W argv
   = ([EvLog (mkLog CRITICAL
                ("Certificate Directory not found at " ++ os_getcwd W) [] false)],
      Raise (SystemExit 0)))
  /\
  (os_path_isdir W "certs/" = true ->
   os_path_isfile W "certs//server_ca.pem" = false ->
   main W argv
   = ([EvLog (mkLog CRITICAL
                "CA Certificate not found at certs//server_ca.pem" [] false)],
      Raise (SystemExit 0)))
  /\
  (os_path_isdir W "certs/" = true ->
   os_path_isfile W "certs//server_ca.pem" = true ->
   os_path_isfile W "certs//client.pem" = false
   \/ os_path_isfile W "certs//client.key" = false ->
   exists before after,
     main W argv = (before ++ EvConnect :: after, Ok tt) /\
     existsb is_network before = false /\
     exists r, In r (log_records before) /\ levelname r = ERROR).
Proof.
  intros P. repeat split.
  - intros D. unfold main, parse_args. rewrite P, bind_ret_l.
    unfold CERT_DIR. rewrite D. cbn. now rewrite append_empty_r.
  - intros D CA. unfold main, parse_args. rewrite P, bind_ret_l.
    unfold CERT_DIR. simpl append. rewrite D, CA. reflexivity.
  - intros D CA M. rewrite (main_connects _ _ P D CA).
    eexists. eexists. split; [rewrite app_assoc; reflexivity|].
    destruct (os_path_isfile W "certs//client.pem"),
      (os_path_isfile W "certs//client.key");
      try (destruct M; discriminate);
      (split; [reflexivity|]); eexists; (split; [left; reflexivity|reflexivity]).
Qed.

Lemma certificate_checks_witness :
  Py.mem "nodes" choices = true /\
  main without_directory (sample_argv "nodes" None None)
  = ([EvLog (mkLog CRITICAL "Certificate Directory not found at /home/romeo"
               [] false)],
     Raise (SystemExit 0)) /\
  exists before after,
    main (without_file "certs//client.pem") (sample_argv "nodes" None None)
    = (before ++ EvConnect :: after, Ok tt) /\
    existsb is_network before = false /\
    exists r, In r (log_records before) /\ levelname r = ERROR.
Proof.
  split; [reflexivity|]. split.
  - exact (proj1 (certificate_checks without_directory
                    (sample_argv "nodes" None None) eq_refl) eq_refl).
  - exact (proj2 (proj2 (certificate_checks (without_file "certs//client.pem")
                           (sample_argv "nodes" None None) eq_refl))
             eq_refl eq_refl (or_introl eq_refl)).
Defined.

(** C10.  When directory and CA bundle are there and the client key is
    absent, the warning logged for the key is formatted with the path of the
    CA bundle: the line reads certs//server_ca.pem, and no line logged
    before the connection contains the path of the key. *)
Theorem missing_key_warning_names_ca_bundle (W : World) (argv : Namespace) :
  Py.mem (args_action argv) choices = true ->
  os_path_isdir W "certs/" = true ->
  os_path_isfile W "certs//server_ca.pem" = true ->
  os_path_isfile W "certs//client.key" = false ->
  exists before after,
    main W argv = (before ++ EvConnect :: after, Ok tt) /\
    In (mkLog ERROR "Client Key not found at certs//server_ca.pem" [] false)
      (log_records before) /\
    forall r line,
      In r (log_records before) -> getMessage r = Some line ->
      Py.contains "certs//client.key" line = false.
Proof.
  intros P D CA K. rewrite (main_connects _ _ P D CA), K.
  eexists. eexists. split; [rewrite app_assoc; reflexivity|].
  destruct (os_path_isfile W "certs//client.pem"); simpl.
  - split; [now left|].
    intros r line [<-|[]] M. injection M as <-. reflexivity.
  - split; [right; now left|].
    intros r line [<-|[<-|[]]] M; injection M as <-; reflexivity.
Qed.

Lemma missing_key_warning_names_ca_bundle_witness :
  os_path_isfile (without_file "certs//client.key") "certs//client.key" = false /\
  exists before after,
    main (without_file "certs//client.key") (sample_argv "nodes" None None)
    = (before ++ EvConnect :: after, Ok tt) /\
    In (mkLog ERROR "Client Key not found at certs//server_ca.pem" [] false)
      (log_records before) /\
    forall r line,
      In r (log_records before) -> getMessage r = Some line ->
      Py.contains "certs//client.key" line = false.
Proof.
  split; [reflexivity|].
  exact (missing_key_warning_names_ca_bundle (without_file "certs//client.key")
           (sample_argv "nodes" None None) eq_refl eq_refl eq_refl eq_refl).
Defined.

(** ** add_owner without data *)

(** C9.  When the data is missing, [add_owner] fails on the split, before
    its [try] and before any request is built, so its own [except] clause
    does not see the exception; [start] catches it, logs it with the action
    name and disconnects.  The script passes the omitted command-line
    argument on as the missing data, so a command line add_owner without
    data runs exactly so. *)
Theorem add_owner_without_data (W : World) (self : PubsubClient) :
  data self = None ->
  add_owner W self
  = ([], Raise (AttributeError "'NoneType' object has no attribute 'split'")) /\
  (action self = "add_owner" ->
   get_roster W = Ok tt ->
   start W self
   = ([EvRoster; EvPresence; EvCall "add_owner";
       EvLog (mkLog ERROR "Could not execute %s:" ["add_owner"] true);
       EvDisconnect], Ok tt)) /\
  (forall argv,
     args_action argv = "add_owner" ->
     args_data argv = None ->
     os_path_isdir W "certs/" = true ->
     os_path_isfile W "certs//server_ca.pem" = true ->
     os_path_isfile W "certs//client.pem" = true ->
     os_path_isfile W "certs//client.key" = true ->
     session_established W = true ->
     get_roster W = Ok tt ->
     main W argv
     = ([EvConnect; EvRoster; EvPresence; EvCall "add_owner";
         EvLog (mkLog ERROR "Could not execute %s:" ["add_owner"] true);
         EvDisconnect], Ok tt)).
Proof.
  intros D.
  assert (Run_None : forall c, data c = None ->
            add_owner W c
            = ([], Raise (AttributeError "'NoneType' object has no attribute 'split'"))).
  { intros c Dc. now rewrite add_owner_run, Dc. }
  split; [now apply Run_None|]. split.
  - intros A R.
    rewrite (start_run W self (add_owner W self) R) by (now rewrite A).
    rewrite (Run_None _ D), A. reflexivity.
  - intros argv A Dv Dir CA Cert Key S R.
    rewrite main_connects by (rewrite ?A; auto).
    rewrite Cert, Key, S.
    rewrite (start_run W _ (add_owner W _) R) by (simpl; now rewrite A).
    rewrite Run_None by exact Dv. simpl. rewrite A. reflexivity.
Qed.

Lemma add_owner_without_data_witness :
  data (sample_client "add_owner" (Some "n1") None) = None /\
  main (answering (Ok empty_iq)) (sample_argv "add_owner" (Some "n1") None)
  = ([EvConnect; EvRoster; EvPresence; EvCall "add_owner";
      EvLog (mkLog ERROR "Could not execute %s:" ["add_owner"] true);
      EvDisconnect], Ok tt).
Proof.
  split; [reflexivity|].
  exact (proj2 (proj2 (add_owner_without_data (answering (Ok empty_iq))
                         (sample_client "add_owner" (Some "n1") None) eq_refl))
           (sample_argv "add_owner" (Some "n1") None)
           eq_refl eq_refl eq_refl eq_refl eq_refl eq_refl eq_refl eq_refl).
Defined.

(** * Further properties of the handlers and of the script *)

(** ** The shape of every handler, with levels and addresses *)

Ltac levelled :=
  split;
  [ let iq := fresh "iq" in
    let r := fresh "r" in
    let Hr := fresh "Hr" in
    intros iq r Hr;
    first [ apply in_map_iff in Hr as (? & <- & _)
          | destruct Hr as [<-|[]] ];
    split; reflexivity
  | intros ?; split; reflexivity ].

Ltac shaped :=
  do 3 eexists;
  split; [reflexivity|]; split; [levelled|split; reflexivity].

(** Every run of an action handler either failed before it built a request,
    or is a [handled] run whose request goes to the server and the node of
    the client and whose records are plain. *)
Lemma handler_shape (W : World) (self : PubsubClient) (name : string)
    (h : Run unit) :
  lookup name (methods W self) = Some h ->
  (exists x, h = ([], Raise x)) \/
  (exists req on_success on_fault,
     h = handled W req on_success on_fault /\
     well_levelled on_success on_fault /\
     request_server req = pubsub_server self /\
     request_node req = node self).
Proof.
  unfold methods. simpl.
  repeat (destruct (String.eqb name _);
          [intros E; injection E as <-|]); try discriminate.
  - right. rewrite nodes_run. shaped.
  - right. rewrite create_run. shaped.
  - right. rewrite delete_run. shaped.
  - right. rewrite get_configure_run. shaped.
  - rewrite publish_run. destruct (ET_fromstring W _); [right|eauto].
    shaped.
  - right. rewrite get_run. shaped.
  - right. rewrite retract_run. shaped.
  - right. rewrite purge_run. shaped.
  - right. rewrite subscribe_run. shaped.
  - right. rewrite unsubscribe_run. shaped.
  - right. rewrite get_affiliation_run. shaped.
  - rewrite add_owner_run. destruct (data self); [right|eauto].
    shaped.
Qed.

Lemma log_lines_below (threshold : Level) (rs : list LogRecord) :
  (forall r, In r rs -> levelno (levelname r) < levelno threshold) ->
  log_lines threshold rs = [].
Proof.
  induction rs as [|r rs IH]; intros H; [reflexivity|].
  simpl. unfold emitted.
  pose proof (H r (or_introl eq_refl)) as Hr.
  apply Nat.leb_gt in Hr. rewrite Hr.
  apply IH. intros r' Hr'. apply H. now right.
Qed.

(** ** Where the requests go *)

(** X1.  Whatever the action and the answers of the world, a handler that
    hands a request to the plugin hands over exactly that one request, and
    addresses it to the pub/sub server and to the node the client was built
    with. *)
Theorem handler_request_is_addressed_to_the_client_node (W : World)
    (self : PubsubClient) (name : string) (h : Run unit)
    (req : xep_0060.Request) :
  lookup name (methods W self) = Some h ->
  In (EvRequest req) (events h) ->
  requests (events h) = [req] /\
  request_server req = pubsub_server self /\
  request_node req = node self.
Proof.
  intros L I.
  destruct (handler_shape _ _ _ _ L)
    as [[x ->]|(req0 & s & f & -> & _ & Hs & Hn)]; [destruct I|].
  apply handled_request_in in I. subst req0.
  rewrite handled_requests. auto.
Qed.

Lemma handler_request_is_addressed_to_the_client_node_witness :
  In (EvRequest (xep_0060.purge "pubsub.example.org" (Some "n1")))
    (events (purge (answering (Ok empty_iq)) (sample_client "purge" (Some "n1") None)))
  /\ requests
       (events (purge (answering (Ok empty_iq))
                  (sample_client "purge" (Some "n1") None)))
     = [xep_0060.purge "pubsub.example.org" (Some "n1")].
Proof.
  assert (I : In (EvRequest (xep_0060.purge "pubsub.example.org" (Some "n1")))
                (events (purge (answering (Ok empty_iq))
                           (sample_client "purge" (Some "n1") None))))
    by (left; reflexivity).
  split; [exact I|].
  exact (proj1 (handler_request_is_addressed_to_the_client_node
                  (answering (Ok empty_iq))
                  (sample_client "purge" (Some "n1") None) "purge" _ _
                  eq_refl I)).
Defined.

(** ** Success and failure of the request *)

(** X2.  When the plugin answers the request of a handler with a result
    stanza, the handler returns without an exception, every record it logs
    is at level INFO, and so nothing reaches the log when the threshold is
    ERROR (the option -q). *)
Theorem handler_success_is_logged_at_info (W : World) (self : PubsubClient)
    (name : string) (h : Run unit) (req : xep_0060.Request) (iq : Iq) :
  lookup name (methods W self) = Some h ->
  In (EvRequest req) (events h) ->
  xep_0060_send W req = Ok iq ->
  result h = Ok tt /\
  (forall r, In r (log_records (events h)) ->
     levelname r = INFO /\ exc_info r = false) /\
  log_lines ERROR (log_records (events h)) = [].
Proof.
  intros L I E.
  destruct (handler_shape _ _ _ _ L)
    as [[x ->]|(req0 & s & f & -> & [Hs _] & _)]; [destruct I|].
  apply handled_request_in in I. subst req0.
  rewrite (handled_ok _ _ _ _ _ E). simpl. rewrite log_records_logs.
  split; [reflexivity|].
  assert (A : forall r, In r (s iq) -> levelname r = INFO /\ exc_info r = false)
    by (intros r; apply Hs).
  split; [exact A|].
  apply log_lines_below. intros r Hr.
  destruct (A r Hr) as [-> _]. simpl. lia.
Qed.

Lemma handler_success_is_logged_at_info_witness :
  xep_0060_send (answering (Ok empty_iq))
    (xep_0060.delete_node "pubsub.example.org" (Some "n1")) = Ok empty_iq /\
  log_lines ERROR
    (log_records (events (delete (answering (Ok empty_iq))
                            (sample_client "delete" (Some "n1") None)))) = [].
Proof.
  split; [reflexivity|].
  exact (proj2 (proj2 (handler_success_is_logged_at_info
                         (answering (Ok empty_iq))
                         (sample_client "delete" (Some "n1") None) "delete" _
                         (xep_0060.delete_node "pubsub.example.org" (Some "n1"))
                         empty_iq eq_refl (or_introl eq_refl) eq_refl))).
Defined.

(** X3.  When the plugin answers the request of a handler with an exception
    that is not an XMPPError, the handler logs nothing and the exception
    leaves it: the [except] clause of the handler is for XMPPError only. *)
Theorem other_exceptions_leave_the_handler (W : World) (self : PubsubClient)
    (name : string) (h : Run unit) (req : xep_0060.Request) (x : Exception) :
  lookup name (methods W self) = Some h ->
  In (EvRequest req) (events h) ->
  xep_0060_send W req = Raise x ->
  (forall e, x <> XMPPError e) ->
  h = ([EvRequest req], Raise x).
Proof.
  intros L I E NX.
  destruct (handler_cases _ _ _ _ L) as [[y ->]|(req0 & s & f & ->)];
    [destruct I|].
  apply handled_request_in in I. subst req0.
  unfold handled. rewrite E.
  destruct x; try reflexivity. now destruct (NX format).
Qed.

Lemma other_exceptions_leave_the_handler_witness :
  subscribe (answering (Raise (OtherException "ConnectionResetError")))
    (sample_client "subscribe" (Some "n1") None)
  = ([EvRequest (xep_0060.subscribe "pubsub.example.org" (Some "n1"))],
     Raise (OtherException "ConnectionResetError")).
Proof.
  apply (other_exceptions_leave_the_handler
           (answering (Raise (OtherException "ConnectionResetError")))
           (sample_client "subscribe" (Some "n1") None) "subscribe" _
           (xep_0060.subscribe "pubsub.example.org" (Some "n1"))
           (OtherException "ConnectionResetError") eq_refl
           (or_introl eq_refl) eq_refl).
  intros e. discriminate.
Defined.

Lemma log_records_app (t u : list event) :
  log_records (t ++ u) = log_records t ++ log_records u.
Proof.
  induction t as [|ev t IH]; [reflexivity|].
  destruct ev; simpl; rewrite IH; reflexivity.
Qed.

(** No record of an action handler carries exception information. *)
Lemma handler_records_plain (W : World) (self : PubsubClient) (name : string)
    (h : Run unit) (r : LogRecord) :
  lookup name (methods W self) = Some h ->
  In r (log_records (events h)) -> exc_info r = false.
Proof.
  intros L I.
  destruct (handler_shape _ _ _ _ L)
    as [[x ->]|(req & s & f & -> & [Hs Hf] & _)]; [destruct I|].
  unfold handled in I.
  destruct (xep_0060_send W req) as [iq|[]]; simpl in I;
    try contradiction.
  - rewrite log_records_logs in I. now apply (Hs iq).
  - destruct I as [<-|[]]. apply Hf.
Qed.

(** X4.  In a run of [start] for one of the handlers, in which the roster
    arrives, the line of the catch-all (the only record with exception
    information) is in the log exactly when an exception left the handler:
    a fault the handler has logged itself is not reported a second time. *)
Theorem catch_all_logs_exactly_the_escaped_exceptions (W : World)
    (self : PubsubClient) (h : Run unit) :
  get_roster W = Ok tt ->
  lookup (action self) (methods W self) = Some h ->
  (exists r, In r (log_records (events (start W self))) /\ exc_info r = true)
  <-> (exists x, result h = Raise x).
Proof.
  intros R L. rewrite (start_run _ _ _ R L). simpl.
  rewrite !log_records_app. split.
  - intros (r & I & E). apply in_app_or in I as [I|I].
    + rewrite (handler_records_plain _ _ _ _ _ L I) in E. discriminate.
    + destruct (result h) as [u|x]; [|eauto].
      simpl in I. destruct I.
  - intros [x E]. rewrite E. eexists. split.
    + apply in_or_app. right. left. reflexivity.
    + reflexivity.
Qed.

Lemma catch_all_logs_exactly_the_escaped_exceptions_witness :
  get_roster (answering (Raise conflict)) = Ok tt /\
  ~ (exists r,
       In r (log_records
               (events (start (answering (Raise conflict))
                          (sample_client "retract" (Some "n1") (Some "i1")))))
       /\ exc_info r = true).
Proof.
  split; [reflexivity|]. intros H.
  apply (proj1 (catch_all_logs_exactly_the_escaped_exceptions
                  (answering (Raise conflict))
                  (sample_client "retract" (Some "n1") (Some "i1")) _
                  eq_refl eq_refl)) in H.
  destruct H as [x E]. discriminate E.
Defined.

(** ** nodes *)

Lemma log_lines_map {A} (threshold : Level) (f : A -> LogRecord)
    (g : A -> string) (xs : list A) :
  (forall x, emitted threshold (f x) = Some (g x)) ->
  log_lines threshold (map f xs) = map g xs.
Proof.
  intros H. induction xs as [|x xs IH]; [reflexivity|].
  simpl. rewrite H, IH. reflexivity.
Qed.

(** X5.  When the node list arrives, [nodes] returns normally and logs one
    line for each item its loop over the discovered items meets, in the
    order in which the loop meets them (the iteration order of the set the
    library hands over), each made of two spaces, a dash, a space and the
    item; and it logs nothing else.  The lines are written at the
    thresholds INFO and DEBUG. *)
Theorem nodes_logs_one_line_per_item (W : World) (self : PubsubClient) (iq : Iq) :
  xep_0060_send W (xep_0060.get_nodes (pubsub_server self) (node self)) = Ok iq ->
  result (nodes W self) = Ok tt /\
  forall threshold, threshold = INFO \/ threshold = DEBUG ->
    log_lines threshold (log_records (events (nodes W self)))
    = map (fun item => ("  - " ++ item)%string) (disco_items iq).
Proof.
  intros E. rewrite nodes_run, (handled_ok _ _ _ _ _ E). simpl.
  split; [reflexivity|]. intros threshold T.
  rewrite log_records_logs. apply log_lines_map. intros item.
  destruct T as [-> | ->]; cbn; now rewrite append_empty_r.
Qed.

Lemma nodes_logs_one_line_per_item_witness :
  log_lines INFO
    (log_records (events (nodes (answering (Ok two_nodes_iq))
                            (sample_client "nodes" None None))))
  = ["  - ('pubsub.example.org', 'n1', None)";
     "  - ('pubsub.example.org', 'n2', None)"].
Proof.
  exact (proj2 (nodes_logs_one_line_per_item (answering (Ok two_nodes_iq))
                  (sample_client "nodes" None None) two_nodes_iq eq_refl)
           INFO (or_introl eq_refl)).
Defined.

(** ** The two affiliation handlers *)

(** X6.  When the server answers [get_affiliation] or [add_owner] with a
    protocol fault, the handler returns without an exception after exactly
    one call of logging.error, at level ERROR, whose message has no
    conversion for the three arguments passed with it: formatting the
    record fails, so the node and the text of the fault are never formatted
    into a failure message. *)
Theorem affiliation_fault_record_does_not_format (W : World)
    (self : PubsubClient) (name : string) (h : Run unit)
    (req : xep_0060.Request) (e : string) :
  name = "get_affiliation" \/ name = "add_owner" ->
  lookup name (methods W self) = Some h ->
  In (EvRequest req) (events h) ->
  xep_0060_send W req = Raise (XMPPError e) ->
  exists r,
    h = ([EvRequest req; EvLog r], Ok tt) /\
    r = mkLog ERROR "Could not get affiliations"
          [boundjid_bare W; Py.str (node self); e] false /\
    getMessage r = None.
Proof.
  intros N L I F. eexists. split; [|split; reflexivity].
  destruct N as [-> | ->]; simpl in L; injection L as <-.
  - rewrite get_affiliation_run in *.
    apply handled_request_in in I. subst req.
    now rewrite (handled_fault _ _ _ _ _ F).
  - rewrite add_owner_run in *.
    destruct (data self) as [d|]; [|destruct I].
    apply handled_request_in in I. subst req.
    now rewrite (handled_fault _ _ _ _ _ F).
Qed.

Lemma affiliation_fault_record_does_not_format_witness :
  xep_0060_send (answering (Raise conflict))
    (xep_0060.get_affiliations "pubsub.example.org" (Some "n1"))
  = Raise (XMPPError "cancel: conflict") /\
  exists r,
    get_affiliation (answering (Raise conflict))
      (sample_client "get_affiliation" (Some "n1") None)
    = ([EvRequest (xep_0060.get_affiliations "pubsub.example.org" (Some "n1"));
        EvLog r], Ok tt) /\
    r = mkLog ERROR "Could not get affiliations"
          ["romeo@example.org"; "n1"; "cancel: conflict"] false /\
    getMessage r = None.
Proof.
  split; [reflexivity|].
  exact (affiliation_fault_record_does_not_format (answering (Raise conflict))
           (sample_client "get_affiliation" (Some "n1") None)
           "get_affiliation" _
           (xep_0060.get_affiliations "pubsub.example.org" (Some "n1"))
           "cancel: conflict" (or_introl eq_refl) eq_refl
           (or_introl eq_refl) eq_refl).
Defined.

Lemma join_map_fst (sep : ascii) (role : string) (pieces : list string) :
  map fst (map (fun new_owner : string => (new_owner, role)) pieces) = pieces.
Proof. rewrite map_map. simpl. apply map_id. Qed.

(** X7.  Whatever the data string, the batch [add_owner] hands to the plugin
    has one entry for each piece between the commas, so one entry more than
    the data has commas and never none; every entry has the role owner; and
    the identities, joined with commas, give the data back (nothing is
    trimmed, dropped or reordered). *)
Theorem add_owner_batch_follows_the_data (W : World) (self : PubsubClient)
    (d : string) :
  data self = Some d ->
  exists batch,
    requests (events (add_owner W self))
    = [xep_0060.modify_affiliations (pubsub_server self) (node self) batch] /\
    length batch = S (Py.count "," d) /\
    (forall entry, In entry batch -> snd entry = "owner") /\
    Py.join "," (map fst batch) = d.
Proof.
  intros D. rewrite add_owner_run, D, handled_requests.
  eexists. split; [reflexivity|]. split; [|split].
  - now rewrite length_map, split_length.
  - intros entry I. apply in_map_iff in I as (o & <- & _). reflexivity.
  - rewrite (join_map_fst "," "owner"). apply join_split.
Qed.

Lemma add_owner_batch_follows_the_data_witness :
  data (sample_client "add_owner" (Some "n1") (Some "a@x,,b@x ")) = Some "a@x,,b@x " /\
  exists batch,
    requests (events (add_owner (answering (Ok empty_iq))
                        (sample_client "add_owner" (Some "n1") (Some "a@x,,b@x "))))
    = [xep_0060.modify_affiliations "pubsub.example.org" (Some "n1") batch] /\
    length batch = 3 /\
    (forall entry, In entry batch -> snd entry = "owner") /\
    Py.join "," (map fst batch) = "a@x,,b@x ".
Proof.
  split; [reflexivity|].
  exact (add_owner_batch_follows_the_data (answering (Ok empty_iq))
           (sample_client "add_owner" (Some "n1") (Some "a@x,,b@x "))
           "a@x,,b@x " eq_refl).
Defined.

(** ** The parser and the handlers *)

Lemma mem_In (x : string) (xs : list string) : Py.mem x xs = true <-> In x xs.
Proof.
  unfold Py.mem. rewrite existsb_exists. split.
  - intros (y & I & E). apply String.eqb_eq in E. now subst.
  - intros I. exists x. split; [exact I|apply String.eqb_refl].
Qed.

Lemma lookup_methods_actions (W : World) (self : PubsubClient) (name : string)
    (h : Run unit) :
  lookup name (methods W self) = Some h -> In name actions.
Proof.
  unfold methods, actions. simpl.
  repeat match goal with
         | |- context [String.eqb name ?s] =>
             let E := fresh "E" in
             destruct (String.eqb name s) eqn:E;
             [apply String.eqb_eq in E; subst name; tauto|]
         end.
  discriminate.
Qed.

(** X8.  The list given to the parser and [self.actions] hold the same
    names, although they are written in different orders.  Every name the
    parser accepts is the name of a handler coroutine of the class, and
    dispatch on it enters that handler and runs it.  Conversely every
    handler coroutine of the class has a name the parser accepts, so each
    of them can be reached from the command line. *)
Theorem accepted_actions_dispatch_to_their_handlers (W : World)
    (self : PubsubClient) (name : string) :
  (Py.mem name choices = true <-> In name actions) /\
  (Py.mem name choices = true ->
   exists h,
     lookup name (methods W self) = Some h /\
     getattr_call W self name = (EvCall name :: events h, result h)) /\
  (forall h, lookup name (methods W self) = Some h ->
     Py.mem name choices = true).
Proof.
  assert (CA : Py.mem name choices = true <-> In name actions)
    by (rewrite choices_actions; apply mem_In).
  split; [exact CA|]. split.
  - intros P. apply CA in P.
    destruct (actions_have_handlers W self _ P) as [h L].
    exists h. split; [exact L|].
    unfold getattr_call. rewrite L. destruct h as [t r]. reflexivity.
  - intros h L. apply CA. exact (lookup_methods_actions _ _ _ _ L).
Qed.

Lemma accepted_actions_dispatch_to_their_handlers_witness :
  Py.mem "purge" choices = true /\
  exists h,
    lookup "purge" (methods (answering (Ok empty_iq))
                      (sample_client "purge" (Some "n1") None)) = Some h /\
    getattr_call (answering (Ok empty_iq))
      (sample_client "purge" (Some "n1") None) "purge"
    = (EvCall "purge" :: events h, result h).
Proof.
  split; [reflexivity|].
  exact (proj1 (proj2 (accepted_actions_dispatch_to_their_handlers
                         (answering (Ok empty_iq))
                         (sample_client "purge" (Some "n1") None) "purge"))
           eq_refl).
Defined.

(** ** The script as a whole *)

Lemma main_no_directory (W : World) (argv : Namespace) :
  Py.mem (args_action argv) choices = true ->
  os_path_isdir W "certs/" = false ->
  events (main W argv) = [EvLog (mkLog CRITICAL
                                   ("Certificate Directory not found at "
                                      ++ os_getcwd W) [] false)]
  /\ result (main W argv) = Raise (SystemExit 0).
Proof.
  intros P D. unfold main, parse_args. rewrite P, bind_ret_l.
  unfold CERT_DIR. rewrite D. cbn. now rewrite append_empty_r.
Qed.

Lemma main_no_ca (W : World) (argv : Namespace) :
  Py.mem (args_action argv) choices = true ->
  os_path_isdir W "certs/" = true ->
  os_path_isfile W "certs//server_ca.pem" = false ->
  events (main W argv) = [EvLog (mkLog CRITICAL
                                   "CA Certificate not found at certs//server_ca.pem"
                                   [] false)]
  /\ result (main W argv) = Raise (SystemExit 0).
Proof.
  intros P D CA. unfold main, parse_args. rewrite P, bind_ret_l.
  unfold CERT_DIR. simpl append. rewrite D, CA. split; reflexivity.
Qed.

(** X9.  A complete run.  When the parser accepts the action, the
    certificate directory holds the three files, the session gets
    established and the roster arrives, the script logs nothing before it
    connects, and then does, in this order: connect, roster, presence, the
    one handler of the action, the line of the catch-all if an exception
    left the handler, disconnect; and it returns normally. *)
Theorem complete_run (W : World) (argv : Namespace) :
  Py.mem (args_action argv) choices = true ->
  os_path_isdir W "certs/" = true ->
  os_path_isfile W "certs//server_ca.pem" = true ->
  os_path_isfile W "certs//client.pem" = true ->
  os_path_isfile W "certs//client.key" = true ->
  session_established W = true ->
  get_roster W = Ok tt ->
  exists h,
    lookup (args_action argv) (methods W (client_of argv)) = Some h /\
    main W argv
    = (EvConnect :: EvRoster :: EvPresence :: EvCall (args_action argv)
         :: events h
         ++ match result h with
            | Ok _ => []
            | Raise _ =>
                [EvLog (mkLog ERROR "Could not execute %s:" [args_action argv] true)]
            end ++ [EvDisconnect],
       Ok tt).
Proof.
  intros P D CA Cert Key S R.
  assert (A : In (args_action argv) actions)
    by (apply mem_In; now rewrite <- choices_actions).
  destruct (actions_have_handlers W (client_of argv) _ A) as [h L].
  exists h. split; [exact L|].
  rewrite (main_connects _ _ P D CA), Cert, Key, S.
  change (mkPubsubClient (args_jid argv) (args_password argv) (args_server argv)
            (args_node argv) (args_action argv) (args_data argv))
    with (client_of argv).
  rewrite (start_run W (client_of argv) h R L). reflexivity.
Qed.

Lemma complete_run_witness :
  Py.mem "purge" choices = true /\
  main (answering (Ok empty_iq)) (sample_argv "purge" (Some "n1") None)
  = ([EvConnect; EvRoster; EvPresence; EvCall "purge";
      EvRequest (xep_0060.purge "pubsub.example.org" (Some "n1"));
      EvLog (mkLog INFO "Purged all items from node %s" ["n1"] false);
      EvDisconnect], Ok tt).
Proof.
  split; [reflexivity|].
  destruct (complete_run (answering (Ok empty_iq))
              (sample_argv "purge" (Some "n1") None)
              eq_refl eq_refl eq_refl eq_refl eq_refl eq_refl eq_refl)
    as (h & L & M).
  rewrite M. injection L as <-. reflexivity.
Defined.

(** X10.  A request reaches the plugin only in a run in which the parser
    accepted the action, the certificate directory and the CA bundle are
    there, the session got established and the roster arrived; and the
    request is addressed to the server and the node of the command line. *)
Theorem requests_need_an_established_session (W : World) (argv : Namespace)
    (r : xep_0060.Request) :
  In (EvRequest r) (events (main W argv)) ->
  Py.mem (args_action argv) choices = true /\
  os_path_isdir W "certs/" = true /\
  os_path_isfile W "certs//server_ca.pem" = true /\
  session_established W = true /\
  get_roster W = Ok tt /\
  request_server r = args_server argv /\
  request_node r = args_node argv.
Proof.
  intros I.
  destruct (Py.mem (args_action argv) choices) eqn:P;
    [|rewrite (main_refuses _ _ P) in I; destruct I].
  destruct (os_path_isdir W "certs/") eqn:D;
    [|rewrite (proj1 (main_no_directory _ _ P D)) in I;
      destruct I as [I|[]]; discriminate I].
  destruct (os_path_isfile W "certs//server_ca.pem") eqn:CA;
    [|rewrite (proj1 (main_no_ca _ _ P D CA)) in I;
      destruct I as [I|[]]; discriminate I].
  rewrite (main_connects _ _ P D CA) in I. simpl in I.
  assert (J : In (EvRequest r)
                (if session_established W
                 then events (start W (client_of argv)) else [])).
  { destruct (os_path_isfile W "certs//client.pem"),
      (os_path_isfile W "certs//client.key"); simpl in I;
      repeat (destruct I as [I|I]; [discriminate I|]); exact I. }
  clear I. destruct (session_established W); [|destruct J].
  destruct (get_roster W) as [[]|x] eqn:R;
    [|rewrite (start_without_roster _ _ _ R) in J;
      destruct J as [J|[]]; discriminate J].
  assert (A : In (args_action argv) actions)
    by (apply mem_In; now rewrite <- choices_actions).
  destruct (actions_have_handlers W (client_of argv) _ A) as [h L].
  rewrite (start_run W (client_of argv) h R L) in J. simpl in J.
  repeat (destruct J as [J|J]; [discriminate J|]).
  apply in_app_or in J as [J|J].
  - destruct (handler_shape _ _ _ _ L)
      as [[x ->]|(req0 & s & f & -> & _ & Hs & Hn)]; [destruct J|].
    apply handled_request_in in J. subst req0. auto 10.
  - apply in_app_or in J as [J|J].
    + destruct (result h); simpl in J; [destruct J|].
      destruct J as [J|[]]. discriminate J.
    + destruct J as [J|[]]. discriminate J.
Qed.

Lemma requests_need_an_established_session_witness :
  In (EvRequest (xep_0060.purge "pubsub.example.org" (Some "n1")))
    (events (main (answering (Ok empty_iq)) (sample_argv "purge" (Some "n1") None)))
  /\ session_established (answering (Ok empty_iq)) = true.
Proof.
  assert (I : In (EvRequest (xep_0060.purge "pubsub.example.org" (Some "n1")))
                (events (main (answering (Ok empty_iq))
                           (sample_argv "purge" (Some "n1") None))))
    by (vm_compute; tauto).
  split; [exact I|].
  exact (proj1 (proj2 (proj2 (proj2
           (requests_need_an_established_session _ _ _ I))))).
Defined.

(** X11.  The script attempts the connection if and only if the parser
    accepted the action and the certificate directory and the CA bundle are
    there.  Otherwise it ends in SystemExit before any network event: with
    status 2 and nothing logged when the parser refuses the action, and
    through [exit()], after exactly one record of level CRITICAL, when the
    directory or the CA bundle is missing. *)
Theorem script_connects_iff_the_checks_pass (W : World) (argv : Namespace) :
  (In EvConnect (events (main W argv))
   <-> Py.mem (args_action argv) choices = true /\
       os_path_isdir W "certs/" = true /\
       os_path_isfile W "certs//server_ca.pem" = true) /\
  (Py.mem (args_action argv) choices = false ->
   main W argv = ([], Raise (SystemExit 2))) /\
  (Py.mem (args_action argv) choices = true ->
   os_path_isdir W "certs/" = false
   \/ os_path_isfile W "certs//server_ca.pem" = false ->
   result (main W argv) = Raise (SystemExit 0) /\
   existsb is_network (events (main W argv)) = false /\
   exists r, log_records (events (main W argv)) = [r] /\ levelname r = CRITICAL).
Proof.
  assert (Fatal : Py.mem (args_action argv) choices = true ->
            os_path_isdir W "certs/" = false
            \/ os_path_isfile W "certs//server_ca.pem" = false ->
            exists r, events (main W argv) = [EvLog r] /\
                      levelname r = CRITICAL /\
                      result (main W argv) = Raise (SystemExit 0)).
  { intros P M. destruct (os_path_isdir W "certs/") eqn:D.
    - destruct M as [M|CA]; [discriminate M|].
      destruct (main_no_ca _ _ P D CA) as [E R].
      eexists. split; [exact E|]. split; [reflexivity|exact R].
    - destruct (main_no_directory _ _ P D) as [E R].
      eexists. split; [exact E|]. split; [reflexivity|exact R]. }
  split; [|split].
  - split.
    + intros I. destruct (Py.mem (args_action argv) choices) eqn:P;
        [|rewrite (main_refuses _ _ P) in I; destruct I].
      destruct (os_path_isdir W "certs/") eqn:D;
        [|destruct (Fatal eq_refl (or_introl eq_refl)) as (r & E & _);
          rewrite E in I; destruct I as [I|[]]; discriminate I].
      destruct (os_path_isfile W "certs//server_ca.pem") eqn:CA;
        [auto|].
      destruct (Fatal eq_refl (or_intror eq_refl)) as (r & E & _).
      rewrite E in I. destruct I as [I|[]]. discriminate I.
    + intros (P & D & CA). rewrite (main_connects _ _ P D CA). simpl.
      apply in_or_app. right. apply in_or_app. right. left. reflexivity.
  - apply main_refuses.
  - intros P M. destruct (Fatal P M) as (r & E & L & R).
    split; [exact R|]. rewrite E. split; [reflexivity|].
    exists r. split; [reflexivity|exact L].
Qed.

Lemma script_connects_iff_the_checks_pass_witness :
  Py.mem "nodes" choices = true /\
  os_path_isfile (without_file "certs//server_ca.pem") "certs//server_ca.pem"
  = false /\
  result (main (without_file "certs//server_ca.pem")
            (sample_argv "nodes" None None)) = Raise (SystemExit 0).
Proof.
  split; [reflexivity|]. split; [reflexivity|].
  exact (proj1 (proj2 (proj2 (script_connects_iff_the_checks_pass
                                (without_file "certs//server_ca.pem")
                                (sample_argv "nodes" None None)))
                  eq_refl (or_intror eq_refl))).
Defined.

(** ** publish with data the parser rejects *)

(** X12.  The payload of [publish] is parsed before the [try]: when the
    data is a non-empty text the parser rejects, the handler raises the
    exception of the parser, sends no request and logs nothing; a run of
    [start] then logs the exception through its catch-all and
    disconnects. *)
Theorem publish_rejected_data_sends_nothing (W : World) (self : PubsubClient)
    (d : string) (x : Exception) :
  data self = Some d -> d <> "" ->
  ET_fromstring W d = Raise x ->
  publish W self = ([], Raise x) /\
  (action self = "publish" -> get_roster W = Ok tt ->
   start W self
   = ([EvRoster; EvPresence; EvCall "publish";
       EvLog (mkLog ERROR "Could not execute %s:" ["publish"] true);
       EvDisconnect], Ok tt)).
Proof.
  intros D NE P.
  assert (H : publish W self = ([], Raise x)).
  { rewrite publish_run, D. destruct d as [|c d]; [congruence|].
    simpl. now rewrite P. }
  split; [exact H|]. intros A R.
  rewrite (start_run W self (publish W self) R) by (now rewrite A).
  rewrite H, A. reflexivity.
Qed.

Lemma publish_rejected_data_sends_nothing_witness :
  ET_fromstring (answering (Ok empty_iq)) "hello" = Raise (ParseError "hello") /\
  start (answering (Ok empty_iq)) (sample_client "publish" (Some "n1") (Some "hello"))
  = ([EvRoster; EvPresence; EvCall "publish";
      EvLog (mkLog ERROR "Could not execute %s:" ["publish"] true);
      EvDisconnect], Ok tt).
Proof.
  split; [reflexivity|].
  refine (proj2 (publish_rejected_data_sends_nothing (answering (Ok empty_iq))
                   (sample_client "publish" (Some "n1") (Some "hello"))
                   "hello" (ParseError "hello") eq_refl _ eq_refl)
            eq_refl eq_refl).
  discriminate.
Defined.

(** ** start for any action name *)

(** X13.  Whatever the action name (one of the handlers or not) and
    whatever the call does, once the roster has arrived [start] returns
    without an exception and [disconnect] is its last step; and when the
    roster does not arrive, the exception leaves [start] at once, before
    presence, action and disconnect. *)
Theorem start_disconnects_iff_the_roster_arrives (W : World)
    (self : PubsubClient) :
  (get_roster W = Ok tt ->
   result (start W self) = Ok tt /\
   exists mid,
     events (start W self) = EvRoster :: EvPresence :: mid ++ [EvDisconnect])
  /\
  (forall x, get_roster W = Raise x -> start W self = ([EvRoster], Raise x)).
Proof.
  split.
  - intros R. unfold start, roster. rewrite R.
    destruct (getattr_call W self (action self)) as [t [[]|x]]; simpl.
    + split; [reflexivity|]. exists t. reflexivity.
    + split; [reflexivity|]. eexists. reflexivity.
  - intros x R. now apply start_without_roster.
Qed.

Lemma start_disconnects_iff_the_roster_arrives_witness :
  result (start (answering (Raise (OtherException "KeyboardInterrupt")))
            (sample_client "__init__" None None)) = Ok tt.
Proof.
  exact (proj1 (proj1 (start_disconnects_iff_the_roster_arrives
                         (answering (Raise (OtherException "KeyboardInterrupt")))
                         (sample_client "__init__" None None)) eq_refl)).
Defined.

(** X14.  An action name that is not one of the twelve and that the
    inherited classes do not define never makes [start] hand a request to
    the plugin; and unless the name is get_roster (the inherited coroutine
    [start] itself awaits) dispatch raises before it has done anything. *)
Theorem unknown_names_send_no_request (W : World) (self : PubsubClient) :
  Py.mem (action self) actions = false ->
  inherited W (action self) = None ->
  requests (events (start W self)) = [] /\
  (action self <> "get_roster" -> rejected_at_dispatch W self).
Proof.
  intros N H.
  assert (L : lookup (action self) (methods W self) = None).
  { destruct (lookup (action self) (methods W self)) as [h|] eqn:L;
      [|reflexivity].
    apply lookup_methods_actions, mem_In in L. congruence. }
  split.
  - unfold start, roster, getattr_call. rewrite L, H.
    destruct (get_roster W) as [[]|x]; [|reflexivity].
    destruct (Py.mem (action self) ["start"; "__init__"]); [reflexivity|].
    destruct (String.eqb (action self) "get_roster").
    + unfold roster. destruct (get_roster W) as [[]|y]; reflexivity.
    + destruct (Py.mem (action self) data_attributes); reflexivity.
  - intros G. apply String.eqb_neq in G.
    unfold rejected_at_dispatch, getattr_call. rewrite L, H, G.
    destruct (Py.mem (action self) ["start"; "__init__"]);
      [eexists; reflexivity|].
    destruct (Py.mem (action self) data_attributes); eexists; reflexivity.
Qed.

Lemma unknown_names_send_no_request_witness :
  Py.mem "node" actions = false /\
  requests (events (start (answering (Ok empty_iq))
                      (sample_client "node" (Some "n1") None))) = [].
Proof.
  split; [reflexivity|].
  exact (proj1 (unknown_names_send_no_request (answering (Ok empty_iq))
                  (sample_client "node" (Some "n1") None) eq_refl eq_refl)).
Defined.

(** ** The verbosity options *)

Lemma parse_loglevel_last (options : list Verbosity) (v : Verbosity) :
  parse_loglevel (options ++ [v]) = store_const v.
Proof. unfold parse_loglevel. now rewrite fold_left_app. Qed.

Lemma parse_loglevel_configurable (options : list Verbosity) :
  configurable (parse_loglevel options) = true.
Proof.
  destruct options as [|v options] using rev_ind; [reflexivity|].
  rewrite parse_loglevel_last. now destruct v.
Qed.

(** X15.  Of the options -q and -d the last one on the command line decides
    the threshold, and without them it is INFO.  No combination of them
    silences a record of level ERROR or CRITICAL: such a record reaches the
    log whenever it formats.  A record of level INFO reaches the log unless
    the last option is -q. *)
Theorem verbosity_options (options : list Verbosity) :
  parse_loglevel [] = INFO /\
  (forall v, parse_loglevel (options ++ [v]) = store_const v) /\
  (forall r, levelname r = ERROR \/ levelname r = CRITICAL ->
     emitted (parse_loglevel options) r = getMessage r) /\
  (forall r, levelname r = INFO ->
     emitted (parse_loglevel options) r
     = if match parse_loglevel options with ERROR => true | _ => false end
       then None else getMessage r).
Proof.
  split; [reflexivity|]. split; [intros v; apply parse_loglevel_last|].
  pose proof (parse_loglevel_configurable options) as C.
  split; intros r Hr; unfold emitted.
  - destruct Hr as [-> | ->]; destruct (parse_loglevel options);
      try reflexivity; discriminate.
  - rewrite Hr. destruct (parse_loglevel options); try reflexivity; discriminate.
Qed.

(** ** The lines of a successful request and of an escaped exception *)




(** X17.  In a run of [start] for one of the handlers, in which the roster
    arrives and an exception leaves the handler, exactly one logging call
    is made: the one of the catch-all, at level ERROR and with the
    exception information, whose message formats to the text that names
    the action.  (A handler that lets an exception out has logged nothing
    itself.) *)
Theorem escaped_exception_is_the_only_record (W : World) (self : PubsubClient)
    (h : Run unit) (x : Exception) :
  get_roster W = Ok tt ->
  lookup (action self) (methods W self) = Some h ->
  result h = Raise x ->
  log_records (events (start W self))
  = [mkLog ERROR "Could not execute %s:" [action self] true] /\
  getMessage (mkLog ERROR "Could not execute %s:" [action self] true)
  = Some ("Could not execute " ++ action self ++ ":")%string.
Proof.
  intros R L E. split; [|reflexivity].
  rewrite (start_run _ _ _ R L), E. simpl.
  rewrite log_records_app.
  assert (H : log_records (events h) = []).
  { destruct (handler_cases _ _ _ _ L) as [[y ->]|(req & s & f & ->)];
      [reflexivity|].
    unfold handled in *.
    destruct (xep_0060_send W req) as [iq|[]]; try discriminate E; reflexivity. }
  rewrite H. reflexivity.
Qed.

Lemma escaped_exception_is_the_only_record_witness :
  log_records (events (start (answering (Ok empty_iq))
                         (sample_client "add_owner" (Some "n1") None)))
  = [mkLog ERROR "Could not execute %s:" ["add_owner"] true].
Proof.
  exact (proj1 (escaped_exception_is_the_only_record (answering (Ok empty_iq))
                  (sample_client "add_owner" (Some "n1") None) _
                  (AttributeError "'NoneType' object has no attribute 'split'")
                  eq_refl eq_refl eq_refl)).
Defined.
